(** * SAP consistency evaluator: a shallow embedding of
      [sap/consistency_evaluator.py] and the properties of its scoring and
      matching functions.

    Conventions of the embedding.
    - Python [str] values are ASCII strings ([String.string]); [lower],
      [strip] and [isdigit] act on the ASCII range.  Outside of it Python's
      [str.isdigit] accepts characters that [int] refuses (superscript
      digits); a property that depends on it carries [PyStr.isascii] as a
      hypothesis.
    - Scores (Python [int] and [float]) are exact rationals ([Q]); [==] on
      scores is [Qeq_bool], [>] and [>=] are [Qlt_bool] and [Qle_bool].
      Integers are unbounded as in Python; the rounding of floats, the
      [OverflowError] of the conversion to float of an integer of more than
      308 digits and the [ValueError] of [int] on more than 4300 digits are
      not modelled: a property that depends on them bounds the length of the
      strings.
    - The third-party libraries the module imports ([Levenshtein.jaro],
      [urllib.parse.unquote], [semver.Version.is_valid],
      [packageurl.PackageURL.from_string]) are parameters of the section
      that holds the scoring functions.
    - Logging calls and the debug counters that nothing reads are left out;
      the [fileinvalid] counter of [compare_files] is threaded as state. *)

From Stdlib Require Import String Ascii List Bool Arith ZArith QArith Qabs Lia Lqa.
Import ListNotations.

Open Scope string_scope.
Open Scope Q_scope.

(** ** Python string operations *)

Module PyStr.

Definition is_upper (c : ascii) : bool :=
  let n := nat_of_ascii c in ((65 <=? n) && (n <=? 90))%nat.

Definition lower_char (c : ascii) : ascii :=
  if is_upper c then ascii_of_nat (nat_of_ascii c + 32) else c.

(** [s.lower()] *)
Fixpoint lower (s : string) : string :=
  match s with
  | EmptyString => EmptyString
  | String c r => String (lower_char c) (lower r)
  end.

(** [c.isdigit()] for an ASCII character: the ten decimal digits. *)
Definition isdigit (c : ascii) : bool :=
  let n := nat_of_ascii c in ((48 <=? n) && (n <=? 57))%nat.

(** [c.isspace()]: tab, line feed, vertical tab, form feed, carriage
    return, the four separators 0x1c-0x1f and the space. *)
Definition isspace (c : ascii) : bool :=
  let n := nat_of_ascii c in
  (((9 <=? n) && (n <=? 13)) || ((28 <=? n) && (n <=? 32)))%nat.

(** [s.startswith(p)] *)
Definition startswith (p s : string) : bool := String.prefix p s.

(** [sub in s] *)
Fixpoint contains (sub s : string) : bool :=
  match s with
  | EmptyString => String.prefix sub EmptyString
  | String _ r => String.prefix sub s || contains sub r
  end.

(** [s.replace(c, '')] for a one-character [c] *)
Fixpoint remove_char (c : ascii) (s : string) : string :=
  match s with
  | EmptyString => EmptyString
  | String d r => if Ascii.eqb d c then remove_char c r
                  else String d (remove_char c r)
  end.

(** [s.lstrip()] *)
Fixpoint lstrip (s : string) : string :=
  match s with
  | EmptyString => EmptyString
  | String c r => if isspace c then lstrip r else s
  end.

(** [s.rstrip()] *)
Fixpoint rstrip (s : string) : string :=
  match s with
  | EmptyString => EmptyString
  | String c r =>
      match rstrip r with
      | EmptyString => if isspace c then EmptyString else String c EmptyString
      | r' => String c r'
      end
  end.

(** [s.strip()] *)
Definition strip (s : string) : string := rstrip (lstrip s).

(** [s.split(sep)] for a one-character [sep]: the current field is
    accumulated in [cur] (reversed by appending at the end). *)
Fixpoint split_aux (sep : ascii) (s cur : string) : list string :=
  match s with
  | EmptyString => [cur]
  | String c r =>
      if Ascii.eqb c sep then cur :: split_aux sep r EmptyString
      else split_aux sep r (cur ++ String c EmptyString)
  end.

Definition split (sep : ascii) (s : string) : list string :=
  split_aux sep s EmptyString.

(** [s[n:]] *)
Fixpoint drop (n : nat) (s : string) : string :=
  match n, s with
  | O, _ => s
  | S _, EmptyString => EmptyString
  | S k, String _ r => drop k r
  end.

Definition digit_val (c : ascii) : Z := Z.of_nat (nat_of_ascii c) - 48.

(** [int(s)] on a string of decimal digits (the only strings the module
    converts: [check_digit] guards every call, and the pieces of a split on
    ['.'] hold no dot). *)
Fixpoint int_acc (s : string) (acc : Z) : Z :=
  match s with
  | EmptyString => acc
  | String c r => int_acc r (10 * acc + digit_val c)
  end.

Definition int (s : string) : Z := int_acc s 0.

(** [c in s] for a character [c] *)
Fixpoint has_char (c : ascii) (s : string) : bool :=
  match s with
  | EmptyString => false
  | String d r => Ascii.eqb d c || has_char c r
  end.

(** [s.isascii()]: every code is below 128. *)
Fixpoint isascii (s : string) : bool :=
  match s with
  | EmptyString => true
  | String c r => (nat_of_ascii c <? 128)%nat && isascii r
  end.

End PyStr.

(** ** Values and absence *)

(** A field value as the loader hands it over: [None] or a string. *)
Inductive value : Type :=
| PyNone
| Str (s : string).

(** [v == lit] for a string literal [lit] *)
Definition is_lit (v : value) (lit : string) : bool :=
  match v with
  | PyNone => false
  | Str s => String.eqb s lit
  end.

(** Python truthiness of a field value *)
Definition truthy (v : value) : bool :=
  match v with
  | PyNone => false
  | Str s => negb (String.eqb s "")
  end.

Definition check_empty (v : value) : bool :=
  is_lit v "NONE" || is_lit v "NOASSERTION"
  || match v with PyNone => true | Str _ => false end.

Definition Qlt_bool (a b : Q) : bool := negb (Qle_bool b a).

Definition equal_cmp (v1 v2 : value) : Q :=
  if check_empty v1 && check_empty v2 || is_lit v1 "" && is_lit v2 "" then 0
  else if is_lit v1 "NE" || is_lit v2 "NE" || check_empty v1 || check_empty v2
          || is_lit v1 "" || is_lit v2 "" then 0
  else match v1, v2 with
       | Str a, Str b =>
           if String.eqb (PyStr.lower a) (PyStr.lower b) then 1 else 0
       | _, _ => 0
       end.

(** Lines 39-40, with [isdigit] on the ASCII range. *)
Definition check_digit (version : string) : bool :=
  (fix all_ok (s : string) : bool :=
     match s with
     | EmptyString => true
     | String c r => (PyStr.isdigit c || Ascii.eqb c ".") && all_ok r
     end) version
  && negb (String.eqb version "").

Definition deal_filename (name : string) : string :=
  if PyStr.startswith "./" name then PyStr.drop 2 name
  else if PyStr.startswith "/" name then PyStr.drop 1 name
  else name.

(** ** The data model *)

(** Python exceptions that the modelled code can raise. *)
Inductive exn : Type :=
| ValueError
| KeyError
| TypeError
| UnboundLocalError
| FileNotFoundError
| JSONDecodeError
| UnicodeDecodeError
| RecursionError
| IsADirectoryError
| PermissionError.

Inductive result (A : Type) : Type :=
| Ok (a : A)
| Raise (e : exn).
Arguments Ok {A} a.
Arguments Raise {A} e.

Definition bind {A B : Type} (r : result A) (k : A -> result B) : result B :=
  match r with
  | Ok a => k a
  | Raise e => Raise e
  end.

Notation "x <- r ;; k" := (bind r (fun x => k))
  (at level 61, r at next level, right associativity).

(** A license field: a string or [None], a list of license fields, the
    scancode shape [{'expression': e}], or the ort shape [{'license': ...}]
    whose value is a dict (its items, in order) or a list of dicts with
    optional ['id'] and ['name']; [LicOther] is a value of any other type. *)
Inductive ort_license : Type :=
| OrtDict (items : list (string * string))
| OrtList (entries : list (option string * option string)).

#[warnings="-register-all"]
Inductive license : Type :=
| LicVal (v : value)
| LicList (items : list license)
| LicExpression (expression : string)
| LicOrt (body : ort_license)
| LicOther.

(** One entry of [externalRefs]: a bare string, or a dict with an optional
    ['referenceType'] and its ['referenceLocator']. *)
Inductive external_ref : Type :=
| RefStr (s : string)
| RefObj (referenceType : option string) (referenceLocator : value).

Inductive external_refs : Type :=
| ExtStr (s : string)
| ExtList (refs : list external_ref).

(** [packageVerificationCode]: a string or [None], a list, a dict with an
    optional ['packageVerificationCodeValue'], or something else. *)
Inductive verification_code : Type :=
| PvcVal (v : value)
| PvcList (items : list value)
| PvcDict (packageVerificationCodeValue : option value)
| PvcOther.

Module Spdx.
Record checksum : Type := mk_checksum {
  algorithm : string;
  checksumValue : value
}.

Record file : Type := mk_file {
  file_name : string;
  checksums : list checksum
}.

Record package : Type := mk_package {
  name : string;
  originator : value;
  supplier : value;
  copyrightText : value;
  versionInfo : value;
  packageVerificationCode : verification_code;
  externalRefs : external_refs;
  downloadLocation : value;
  licenseConcluded : license;
  licenseDeclared : license
}.
End Spdx.

Module Cdx.
Record component : Type := mk_component {
  name : string;
  author : value;
  type : value;
  purl : value;
  cpe : value;
  licenses : license;
  version : value
}.

Record metadata : Type := mk_metadata {
  name_com : value;
  version_com : value
}.
End Cdx.

(** A collection of the extracted document: the marker ['NE'] or a dict,
    kept as the list of its items in iteration order. *)
Inductive collection (A : Type) : Type :=
| NE
| Items (items : list (string * A)).
Arguments NE {A}.
Arguments Items {A} items.

Record spdx_data : Type := mk_spdx_data {
  packages : collection Spdx.package;
  files : collection Spdx.file
}.

Record cdx_data : Type := mk_cdx_data {
  metadata : option Cdx.metadata;   (* [None] is the marker ['NE'] *)
  components : collection Cdx.component
}.

(** The JSON content of an extracted document. *)
Inductive filedata : Type :=
| SpdxData (d : spdx_data)
| CdxData (d : cdx_data).

Inductive standard : Type := spdx | cdx.

(** The entities [best_triple_match] compares under each standard. *)
Definition entity (st : standard) : Type :=
  match st with
  | spdx => Spdx.package
  | cdx => Cdx.component
  end.

(** An element of [pkg_info] or [files_info]: a score vector, or a bare
    number. *)
Inductive cell : Type :=
| Num (q : Q)
| Vec (v : list Q).

(** The dict [all_matched_scores]; [files_info] is [None] when the key is
    not set (cdx). *)
Record scores : Type := mk_scores {
  basic_info : string;
  repo_info : list Q;
  pkg_info : list cell;
  files_info : option (list cell);
  statistic_info : list Z
}.

(** [PackageURL.from_string(p).to_dict()]: the six keys in the order of the
    dict, each value [None] or the text [str] gives for it. *)
Record purl_dict : Type := mk_purl {
  purl_type : option string;
  purl_namespace : option string;
  purl_name : option string;
  purl_version : option string;
  purl_qualifiers : option string;
  purl_subpath : option string
}.

(** What a path holds: nothing ([os.path.exists] is false); a text file on
    which [json.load] raises [JSONDecodeError]; something that exists and on
    which [open] or [json.load] raises [e] (a directory:
    [IsADirectoryError]; a file without read permission: [PermissionError];
    bytes that are not text in the encoding of the locale:
    [UnicodeDecodeError]; JSON nested beyond the recursion limit:
    [RecursionError]); or a JSON document. *)
Inductive file_state : Type :=
| Missing
| Malformed
| Unreadable (e : exn)
| Json (data : filedata).

Definition filesystem : Type := string -> file_state.

(** ** Third-party library models *)

(** [int(s)] for an arbitrary string, as [semver.Version.__init__] applies
    it to its [major] argument: surrounding white space, an optional sign,
    then decimal digits with single underscores between them; [None]
    stands for [ValueError]. *)
Fixpoint int_digits (s : string) (prev_digit : bool) (acc : Z) : option Z :=
  match s with
  | EmptyString => if prev_digit then Some acc else None
  | String c r =>
      if PyStr.isdigit c then int_digits r true (10 * acc + PyStr.digit_val c)
      else if Ascii.eqb c "_" && prev_digit then int_digits r false acc
      else None
  end.

Definition int_literal (s : string) : option Z :=
  match PyStr.strip s with
  | String "-" r => option_map Z.opp (int_digits r false 0)
  | String "+" r => int_digits r false 0
  | t => int_digits t false 0
  end.

(** A [semver.Version] object; [to_tuple()] lists the five parts. *)
Record semver_version : Type := mk_semver {
  sv_major : Z;
  sv_minor : Z;
  sv_patch : Z;
  sv_prerelease : option string;
  sv_build : option string
}.

(** One part of a version: the three numbers are Python [int]s, the
    pre-release and build parts are strings. *)
Inductive semver_part : Type :=
| PartInt (n : Z)
| PartStr (s : string).

Definition to_tuple (v : semver_version) : list (option semver_part) :=
  [ Some (PartInt (sv_major v)); Some (PartInt (sv_minor v));
    Some (PartInt (sv_patch v));
    option_map PartStr (sv_prerelease v); option_map PartStr (sv_build v) ].

(** [semver.Version(major)]: the constructor takes the major number as its
    first argument ([minor] and [patch] default to 0, [prerelease] and
    [build] to [None]) and converts it with [int]; it does not parse a
    version string ([Version.parse] does).  [None] stands for the
    [ValueError] it raises. *)
Definition semver_Version (major : string) : option semver_version :=
  match int_literal major with
  | Some n => if (n <? 0)%Z then None else Some (mk_semver n 0 0 None None)
  | None => None
  end.

(** [version[i]]: the part at index [i], [None] ([IndexError]) when the
    part is undefined. *)
Definition semver_getitem (v : semver_version) (i : nat) : option semver_part :=
  nth i (to_tuple v) None.

(** Number of parts that are not [None]. *)
Definition count_parts (v : semver_version) : nat :=
  List.length (filter (fun p => match p with Some _ => true | None => false end)
                      (to_tuple v)).

(** [lst[i] = x] on a list long enough *)
Fixpoint set_nth {A : Type} (i : nat) (x : A) (l : list A) : list A :=
  match l, i with
  | [], _ => []
  | _ :: r, O => x :: r
  | y :: r, S k => y :: set_nth k x r
  end.

(** [sum(l)] *)
Definition sum (l : list Q) : Q := fold_left Qplus l 0.

(** The alternatives of the pattern that [compareName] deletes, in the
    order of the regular expression. *)
Definition name_noise : list string :=
  [ "pub:"; "npm:"; "pip:"; "go:"; "actions:"; "composer:"; "rust:"; "ruby:";
    "nuget:"; "rubygems:"; "docker:"; "maven:"; "iconv:"; " " ].

Fixpoint first_match (alts : list string) (s : string) : option nat :=
  match alts with
  | [] => None
  | a :: r => if String.prefix a s then Some (String.length a)
              else first_match r s
  end.

(** [re.sub(alt1|alt2|..., '', s)]: left to right, the first alternative
    that matches at a position is deleted and the scan resumes after it.
    [skip] counts the characters of the current match still to delete. *)
Fixpoint re_sub_del (alts : list string) (skip : nat) (s : string) : string :=
  match s with
  | EmptyString => EmptyString
  | String c r =>
      match skip with
      | S k => re_sub_del alts k r
      | O =>
          match first_match alts s with
          | Some (S k) => re_sub_del alts k r
          | _ => String c (re_sub_del alts 0 r)
          end
      end
  end.

(** ** The row [run_consistency_evaluator] writes *)

(** [zip] over the unpacked rows needs every row to be iterable: a bare
    number raises [TypeError]. *)
Fixpoint as_vectors (rows : list cell) : result (list (list Q)) :=
  match rows with
  | [] => Ok []
  | Vec v :: r => vs <- as_vectors r ;; Ok (v :: vs)
  | Num _ :: _ => Raise TypeError
  end.

(** The tuples that [zip] yields: column [j] of every row, for [j] below
    the length of the shortest row. *)
Definition zip_star (rows : list (list Q)) : list (list Q) :=
  match rows with
  | [] => []
  | r :: rs =>
      let n := fold_left Nat.min (map (@List.length Q) rs) (List.length r) in
      map (fun j => map (fun row => nth j row 0) rows) (seq 0 n)
  end.

(** [sum(x) / len(x)] for every tuple [x] that [zip] yields *)
Definition column_means (rows : list cell) : result (list Q) :=
  vs <- as_vectors rows ;;
  Ok (map (fun x => sum x / inject_Z (Z.of_nat (List.length x))) (zip_star vs)).

(** Lines 672-679: the numbers of the row, after the repository name. *)
Definition result_row (standard : string) (results : scores)
    : result (list Q) :=
  if String.eqb standard "cdx" then
    pkg_means <- column_means (pkg_info results) ;;
    Ok (repo_info results ++ map inject_Z (statistic_info results)
        ++ pkg_means)%list
  else if String.eqb standard "spdx" then
    pkg_means <- column_means (pkg_info results) ;;
    match files_info results with
    | Some files => 
        files_means <- column_means files ;;
        Ok (map inject_Z (statistic_info results) ++ repo_info results
            ++ pkg_means ++ files_means)%list
    | None => Raise KeyError
    end
  else Raise UnboundLocalError.

(** ** Sample inputs

    Two spdx documents whose only file has the same name and the same single
    checksum, and a document without packages and files. *)

Module Sample.

Definition sha : Spdx.checksum := Spdx.mk_checksum "SHA1" (Str "da39a3ee").

Definition one_file : collection Spdx.file :=
  Items [("SPDXRef-File-1", Spdx.mk_file "./README.md" [sha])].

Definition doc_files : spdx_data := mk_spdx_data (Items []) one_file.

Definition doc_no_packages : spdx_data := mk_spdx_data NE NE.

Definition pkg (nm ver locator : string) : Spdx.package :=
  Spdx.mk_package nm PyNone PyNone PyNone (Str ver) (PvcVal PyNone)
    (ExtList [RefObj (Some "purl") (Str locator)])
    PyNone (LicVal PyNone) (LicVal PyNone).

(** Candidates for the package ["npm:lodash"] at version ["1.0"]; the third
    one agrees with it on the name, the version and the package URL. *)
Definition lodash : Spdx.package :=
  pkg "npm:lodash" "1.0" "pkg:npm/lodash@1.0".

Definition candidates : list (string * Spdx.package) :=
  [ ("SPDXRef-a", pkg "other" "1.0" "pkg:npm/other@1.0");
    ("SPDXRef-b", pkg "lodash" "2.0" "pkg:npm/lodash@2.0");
    ("SPDXRef-c", pkg "Lodash" "1.0" "pkg:npm/lodash@1.0");
    ("SPDXRef-d", pkg "lodash" "v1.0" "pkg:npm/lodash@1.0") ].

(** A file collection of [n] entries. *)
Definition many_files (n : nat) : collection Spdx.file :=
  Items (map (fun i => (String (ascii_of_nat (i / 256))
                          (String (ascii_of_nat (i mod 256)) EmptyString),
                        Spdx.mk_file "f" []))
             (seq 0 n)).

(** An instance of the library parameters: a similarity that tells equal
    strings from different ones, no percent-decoding, no string accepted
    as a semantic version or as a package URL. *)
Definition jaro (a b : string) : Q := if String.eqb a b then 1 else 0.
Definition unquote (s : string) : string := s.
Definition semver_is_valid (_ : string) : bool := false.
Definition purl_from_string (_ : string) : option purl_dict := None.

(** A file system with one spdx document under two names. *)
Definition fs (path : string) : file_state :=
  if String.eqb path "out/spdx#syft#repo.json" then Json (SpdxData doc_files)
  else if String.eqb path "out/spdx#ort#repo.json" then Json (SpdxData doc_files)
  else if String.eqb path "out/spdx#gh-sbom#repo.json" then Malformed
  else Missing.

(** A file system where the document of the first tool has no packages. *)
Definition fs_no_packages (path : string) : file_state :=
  if String.eqb path "out/spdx#syft#repo.json"
  then Json (SpdxData doc_no_packages)
  else if String.eqb path "out/spdx#gh-sbom#repo.json"
  then Json (SpdxData doc_files)
  else Missing.


(** A file system where the document of the first tool is a file whose
    bytes are not text, and the document of the third tool is sound. *)
Definition fs_unreadable (path : string) : file_state :=
  if String.eqb path "out/spdx#syft#repo.json"
  then Unreadable UnicodeDecodeError
  else if String.eqb path "out/spdx#ort#repo.json"
  then Json (SpdxData doc_files)
  else Missing.

End Sample.

Section Scoring.

(** [Levenshtein.jaro] on two strings *)
Variable jaro : string -> string -> Q.
(** [urllib.parse.unquote] *)
Variable unquote : string -> string.
(** [semver.Version.is_valid] *)
Variable semver_is_valid : string -> bool.

(** [Levenshtein.jaro] on two version parts: the function takes strings and
    raises [TypeError] ([None]) on an [int]. *)
Definition jaro_part (a b : semver_part) : option Q :=
  match a, b with
  | PartStr x, PartStr y => Some (jaro x y)
  | _, _ => None
  end.

Definition compareName (name1 name2 : string) : Q :=
  let name1 := unquote name1 in
  let name2 := unquote name2 in
  let name1 := PyStr.lower (re_sub_del name_noise 0 name1) in
  let name2 := PyStr.lower (re_sub_del name_noise 0 name2) in
  equal_cmp (Str name1) (Str name2).

(** *** [version_consistency] *)

(** Lines 171-176: trim, delete the spaces, drop one leading [v] or [V]. *)
Definition normalize_version (version : string) : string :=
  let version := PyStr.remove_char " " (PyStr.strip version) in
  if PyStr.startswith "v" version || PyStr.startswith "V" version
  then PyStr.drop 1 version else version.

(** The loop of the semantic-version branch over [range(count)].  [None]
    is an exception raised in the body (caught by the [except] of the
    branch), [Some s] the value the branch returns. *)
Fixpoint semver_loop (idx : list nat) (v1 v2 : semver_version)
    (weights : list Q) (score : Q) : option Q :=
  match idx with
  | [] => Some score
  | i :: rest =>
      match semver_getitem v1 i, semver_getitem v2 i with
      | Some a, Some b =>
          match jaro_part a b with
          | Some jaro_score =>
              let score := score + jaro_score * nth i weights 0 in
              if Qeq_bool score 1 then Some 1
              else if negb (Qeq_bool jaro_score 1) then Some score
              else semver_loop rest v1 v2 weights score
          | None => None
          end
      | _, _ => None
      end
  end.

(** The [try] block of lines 188-214: [Some s] when it returns [s], [None]
    when control reaches line 216 (the versions are not both valid, or an
    exception was swallowed). *)
Definition semver_branch (version1 version2 : string) : option Q :=
  if semver_is_valid version1 && semver_is_valid version2 then
    match semver_Version version1, semver_Version version2 with
    | Some semver_version1, Some semver_version2 =>
        let count := Nat.min (count_parts semver_version1)
                             (count_parts semver_version2) in
        let weights :=
          if (count =? 4)%nat then [0.6; 0.2; 0.1; 0.1]
          else if (count =? 5)%nat then [0.5; 0.2; 0.15; 0.1; 0.05]
          else [0.7; 0.2; 0.1] in
        semver_loop (seq 0 count) semver_version1 semver_version2 weights 0
    | _, _ => None
    end
  else None.

(** Weights of the dotted comparison for [length = min(len, len)]. *)
Definition split_weights (length : nat) : list Q :=
  if (length =? 1)%nat then [1]
  else if (length =? 2)%nat then [0.8; 0.2]
  else [0.7; 0.2; 0.1].

(** Lines 232-240: the score of one position that is run.  [int] and
    [math.fabs] are taken on the strings on which they return: ASCII digits,
    fewer than 309 of them. *)
Definition position_score (w : Q) (p1 p2 : string) : Q :=
  if String.eqb p1 p2 then w
  else if check_digit p1 && check_digit p2 then
    if (Z.max (PyStr.int p1) (PyStr.int p2) =? 0)%Z then 0
    else inject_Z (Z.abs (PyStr.int p1 - PyStr.int p2))
         / inject_Z (Z.max (PyStr.int p1) (PyStr.int p2)) * w
  else jaro (PyStr.lower p1) (PyStr.lower p2) * w.

(** Lines 225-240: the loop over [range(length)] that fills [diffs]. *)
Fixpoint split_loop (idx : list nat) (weights : list Q)
    (v1_parts v2_parts : list string) (diffs : list Q) : list Q :=
  match idx with
  | [] => diffs
  | i :: rest =>
      let run_flag :=
        (i =? 0)%nat
        || Qeq_bool (nth (i - 1) diffs 0) (nth (i - 1) weights 0) in
      let diffs :=
        if run_flag
        then set_nth i (position_score (nth i weights 0)
                          (nth i v1_parts "") (nth i v2_parts "")) diffs
        else diffs in
      split_loop rest weights v1_parts v2_parts diffs
  end.

(** Lines 216-240: [diffs] when the loop is over. *)
Definition split_diffs (version1 version2 : string) : list Q :=
  let v1_parts := PyStr.split "." version1 in
  let v2_parts := PyStr.split "." version2 in
  let length := Nat.min (List.length v1_parts) (List.length v2_parts) in
  let weights := split_weights length in
  let length := if (length <=? 3)%nat then length else 3%nat in
  split_loop (seq 0 length) weights v1_parts v2_parts [0; 0; 0].

Definition version_consistency (version1 version2 : value) : Q :=
  if check_empty version1 && check_empty version2 then 0
  else if check_empty version1 || check_empty version2
          || is_lit version1 "NE" || is_lit version2 "NE" then 0
  else match version1, version2 with
  | Str version1, Str version2 =>
      if String.eqb (PyStr.lower version1) (PyStr.lower version2) then 1
      else if String.eqb version1 "" || String.eqb version2 "" then 0
      else if PyStr.contains "15.4.6" version1
              || PyStr.contains "15.4.6" version2 then 0
      else
        let version1 := normalize_version version1 in
        let version2 := normalize_version version2 in
        if String.eqb (PyStr.lower version1) (PyStr.lower version2) then 1
        else match semver_branch version1 version2 with
             | Some score => score
             | None => sum (split_diffs version1 version2)
             end
  | _, _ => 0
  end.


(** *** [purl_consistency] *)

(** [PackageURL.from_string]; [None] stands for the exception it raises
    on a string that is not a package URL. *)
Variable purl_from_string : string -> option purl_dict.

Definition or_empty (o : option string) : string :=
  match o with
  | Some s => s
  | None => ""
  end.

(** Lines 109-114: the mean of the six per-key scores. *)
Definition purl_dict_score (p1_dict p2_dict : purl_dict) : Q :=
  let text (f : purl_dict -> option string) :=
    jaro (or_empty (option_map PyStr.lower (f p1_dict)))
         (or_empty (option_map PyStr.lower (f p2_dict))) in
  let score := 0 in
  let score := score + text purl_type in
  let score := score + text purl_namespace in
  let score := score + text purl_name in
  let score := score + version_consistency
                         (Str (or_empty (purl_version p1_dict)))
                         (Str (or_empty (purl_version p2_dict))) in
  let score := score + text purl_qualifiers in
  let score := score + text purl_subpath in
  score / 6.

Definition purl_consistency (p1 p2 : value) : Q :=
  if truthy p1 && truthy p2
     && match p1, p2 with
        | Str a, Str b => String.eqb (PyStr.lower a) (PyStr.lower b)
        | _, _ => false
        end
  then 1
  else if is_lit p1 "NE" || is_lit p2 "NE" then 0
  else if check_empty p1 || check_empty p2 then 0
  else match p1, p2 with
  | Str a, Str b =>
      match purl_from_string a, purl_from_string b with
      | Some p1_dict, Some p2_dict => purl_dict_score p1_dict p2_dict
      | _, _ => jaro (PyStr.lower a) (PyStr.lower b)
      end
  | _, _ => 0
  end.

(** *** [longest_common_substring_consistency_score] *)

(** Row [i] of the table [dp] from row [i-1], columns 1 onwards. *)
Fixpoint lcs_row (c : ascii) (str2 : string) (prev : list nat) : list nat :=
  match str2, prev with
  | String d r, p :: prev' =>
      (if Ascii.eqb c d then S p else O) :: lcs_row c r prev'
  | _, _ => []
  end.

Fixpoint lcs_table (str1 str2 : string) (prev : list nat) (longest_len : nat)
    : nat :=
  match str1 with
  | EmptyString => longest_len
  | String c r =>
      let row := lcs_row c str2 prev in
      lcs_table r str2 (O :: row) (fold_left Nat.max row longest_len)
  end.

Definition longest_common_substring_consistency_score (str1 str2 : value) : Q :=
  if check_empty str1 && check_empty str2 || is_lit str1 "" && is_lit str2 ""
  then 0
  else if is_lit str1 "NE" || is_lit str2 "NE" || check_empty str1
          || check_empty str2 || is_lit str1 "" || is_lit str2 "" then 0
  else match str1, str2 with
  | Str a, Str b =>
      if String.eqb a b then 1
      else
        let a := unquote a in
        let b := unquote b in
        let longest_len :=
          lcs_table a b (repeat O (S (String.length b))) O in
        let longer := Nat.max (String.length a) (String.length b) in
        if (longer =? 0)%nat then 0
        else inject_Z (Z.of_nat longest_len) / inject_Z (Z.of_nat longer)
  | _, _ => 0
  end.

(** *** [text_consistency] *)

Definition text_consistency (text1 text2 : value) : Q :=
  if check_empty text1 && check_empty text2 || is_lit text1 "" && is_lit text2 ""
  then 0
  else if is_lit text1 "NE" || is_lit text2 "NE" || check_empty text1
          || check_empty text2 then 0
  else match text1, text2 with
  | Str a, Str b =>
      if String.eqb (PyStr.lower a) (PyStr.lower b) then 1
      else jaro (PyStr.lower (unquote a)) (PyStr.lower (unquote b))
  | _, _ => 0
  end.

(** *** Licenses *)

(** [l.remove(x)] guarded by [x in l]: drop the first occurrence. *)
Fixpoint remove_first (x : string) (l : list string) : list string :=
  match l with
  | [] => []
  | y :: r => if String.eqb y x then r else y :: remove_first x r
  end.

(** The tokens of an expression string: split on the space and, when more
    than one piece results, drop the first [AND] and the first [OR]. *)
Definition expression_tokens (e : string) : list string :=
  let license_list := PyStr.split " " e in
  if (1 <? List.length license_list)%nat
  then remove_first "OR" (remove_first "AND" license_list)
  else license_list.

Definition ort_tokens (body : ort_license) : list string :=
  match body with
  | OrtDict items =>
      flat_map (fun kv => if String.eqb (fst kv) "id"
                             || String.eqb (fst kv) "name"
                          then [snd kv] else []) items
  | OrtList entries =>
      flat_map (fun x => match x with
                         | (Some id, _) => [id]
                         | (None, Some nm) => [nm]
                         | (None, None) => []
                         end) entries
  end.

Fixpoint deal_license (lic : license) : list string :=
  match lic with
  | LicVal v =>
      if is_lit v "NE" || is_lit v "" || check_empty v then []
      else match v with
           | Str s => expression_tokens s
           | PyNone => []
           end
  | LicList items => flat_map deal_license items
  | LicExpression e => expression_tokens e
  | LicOrt body => ort_tokens body
  | LicOther => []
  end.

Definition value_eqb (a b : value) : bool :=
  match a, b with
  | PyNone, PyNone => true
  | Str x, Str y => String.eqb x y
  | _, _ => false
  end.

Definition option_eqb {A : Type} (eqb : A -> A -> bool) (a b : option A) : bool :=
  match a, b with
  | None, None => true
  | Some x, Some y => eqb x y
  | _, _ => false
  end.

Fixpoint list_eqb {A : Type} (eqb : A -> A -> bool) (a b : list A) : bool :=
  match a, b with
  | [], [] => true
  | x :: a', y :: b' => eqb x y && list_eqb eqb a' b'
  | _, _ => false
  end.

Definition ort_eqb (a b : ort_license) : bool :=
  match a, b with
  | OrtDict x, OrtDict y =>
      list_eqb (fun p q => String.eqb (fst p) (fst q)
                           && String.eqb (snd p) (snd q)) x y
  | OrtList x, OrtList y =>
      list_eqb (fun p q => option_eqb String.eqb (fst p) (fst q)
                           && option_eqb String.eqb (snd p) (snd q)) x y
  | _, _ => false
  end.

(** [license1 == license2] on two license fields *)
Fixpoint license_eqb (a b : license) : bool :=
  match a, b with
  | LicVal x, LicVal y => value_eqb x y
  | LicList xs, LicList ys =>
      (fix go (xs ys : list license) : bool :=
         match xs, ys with
         | [], [] => true
         | x :: xs', y :: ys' => license_eqb x y && go xs' ys'
         | _, _ => false
         end) xs ys
  | LicExpression x, LicExpression y => String.eqb x y
  | LicOrt x, LicOrt y => ort_eqb x y
  | LicOther, LicOther => true
  | _, _ => false
  end.

Definition lic_lit (l : license) (lit : string) : bool :=
  match l with
  | LicVal v => is_lit v lit
  | _ => false
  end.

Definition lic_empty (l : license) : bool :=
  match l with
  | LicVal v => check_empty v
  | _ => false
  end.

(** Lines 324-326: [score += int(l1 == l2)] over all pairs. *)
Definition pair_count (license_list1 license_list2 : list string) : Q :=
  fold_left
    (fun score l1 =>
       fold_left (fun score l2 => score + (if String.eqb l1 l2 then 1 else 0))
                 license_list2 score)
    license_list1 0.

Definition license_consistency (license1 license2 : license) : Q :=
  if lic_empty license1 && lic_empty license2
     || lic_lit license1 "" && lic_lit license2 "" then 0
  else if lic_lit license1 "NE" || lic_lit license2 "NE" || lic_empty license1
          || lic_empty license2 || lic_lit license1 "" || lic_lit license2 ""
  then 0
  else if license_eqb license1 license2 then 1
  else
    let license_list1 := deal_license license1 in
    let license_list2 := deal_license license2 in
    if (List.length license_list1 =? 0)%nat
       || (List.length license_list2 =? 0)%nat then 0
    else
      pair_count license_list1 license_list2
      / inject_Z (Z.of_nat (Nat.max (List.length license_list1)
                                    (List.length license_list2))).

(** *** External references and verification codes *)

(** Returns [(cpe_list, purl_list)]. *)
Definition external_ref_proc (externalRefs : external_refs)
    : list value * list value :=
  match externalRefs with
  | ExtStr _ => ([], [])
  | ExtList refs =>
      fold_left
        (fun acc e =>
           match e with
           | RefStr _ => acc
           | RefObj referenceType referenceLocator =>
               let ref_type := match referenceType with
                               | Some t => t
                               | None => "NE"
                               end in
               if PyStr.contains "cpe" ref_type
               then ((fst acc ++ [referenceLocator])%list, snd acc)
               else if PyStr.contains "purl" ref_type
               then (fst acc, (snd acc ++ [referenceLocator])%list)
               else acc
           end)
        refs ([], [])
  end.

Definition deal_PVC (PVC : verification_code) : value :=
  match PVC with
  | PvcVal v =>
      if is_lit v "NE" || check_empty v || is_lit v "" then PyNone else v
  | PvcList [x] => x
  | PvcList _ => PyNone
  | PvcDict (Some code) => code
  | PvcDict None => PyNone
  | PvcOther => PyNone
  end.

(** *** [best_triple_match] *)

(** [pkg.get('name')] *)
Definition entity_name (st : standard) : entity st -> string :=
  match st with
  | spdx => Spdx.name
  | cdx => Cdx.name
  end.

(** [pkg.get('version') if 'version' in pkg else pkg.get('versionInfo')] *)
Definition entity_version (st : standard) : entity st -> value :=
  match st with
  | spdx => Spdx.versionInfo
  | cdx => Cdx.version
  end.

(** [max(l)] on a list that is not empty *)
Definition py_max (l : list Q) : Q :=
  match l with
  | [] => 0
  | x :: r => fold_left (fun m y => if Qlt_bool m y then y else m) r x
  end.

(** Lines 69-81: the identifier score of the two entities. *)
Definition entity_purl_score (st : standard) : entity st -> entity st -> Q :=
  match st with
  | cdx => fun pkg1 pkg2 => purl_consistency (Cdx.purl pkg1) (Cdx.purl pkg2)
  | spdx => fun pkg1 pkg2 =>
      let purl1 := snd (external_ref_proc (Spdx.externalRefs pkg1)) in
      let purl2 := snd (external_ref_proc (Spdx.externalRefs pkg2)) in
      let temp_purl_score :=
        flat_map (fun p1 => map (fun p2 => purl_consistency p1 p2) purl2)
                 purl1 in
      if (0 <? List.length temp_purl_score)%nat then py_max temp_purl_score
      else 0
  end.

(** Lines 64-82 for one candidate. *)
Definition name_score (st : standard) (pkg1 pkg2 : entity st) : Q :=
  compareName (entity_name st pkg1) (entity_name st pkg2).

Definition triple_score (st : standard) (pkg1 pkg2 : entity st) : Q :=
  name_score st pkg1 pkg2
  + version_consistency (entity_version st pkg1) (entity_version st pkg2)
  + entity_purl_score st pkg1 pkg2.

(** The loop of lines 63-87 over the items of [pkgs2].  The state is
    [(best_score, best_k2)]; [visited] counts the candidates the loop has
    examined. *)
Fixpoint match_loop (st : standard) (pkg1 : entity st)
    (items : list (string * entity st))
    (best_score : Q) (best_k2 : option string) (visited : nat)
    : Q * option string * nat :=
  match items with
  | [] => (best_score, best_k2, visited)
  | (k2, pkg2) :: rest =>
      if Qeq_bool (name_score st pkg1 pkg2) 1 then
        let triple_score := triple_score st pkg1 pkg2 in
        let best :=
          if Qlt_bool best_score triple_score then (triple_score, Some k2)
          else (best_score, best_k2) in
        if Qeq_bool (fst best) 3 then (fst best, snd best, S visited)
        else match_loop st pkg1 rest (fst best) (snd best) (S visited)
      else match_loop st pkg1 rest best_score best_k2 (S visited)
  end.

Definition best_triple_match (st : standard) (pkg1 : entity st)
    (pkgs2 : list (string * entity st)) (threshold : Q) : option string * Q :=
  let '(best_score, best_k2, _) := match_loop st pkg1 pkgs2 (-1) None 0 in
  if Qle_bool threshold best_score then (best_k2, best_score)
  else (None, 0).

(** Number of candidates [best_triple_match] examines. *)
Definition candidates_scanned (st : standard) (pkg1 : entity st)
    (pkgs2 : list (string * entity st)) : nat :=
  snd (match_loop st pkg1 pkgs2 (-1) None 0).

(** [d[k]] on the items of a dict *)
Fixpoint lookup {A : Type} (k : string) (items : list (string * A)) : option A :=
  match items with
  | [] => None
  | (k', a) :: r => if String.eqb k' k then Some a else lookup k r
  end.

(** *** [cdx_consistency] *)

Definition sign_corrected (result : list Q) (flags : list Q) : list Q :=
  if existsb (fun x => Qlt_bool x 0) (result ++ flags)%list
  then map Qabs result else result.

(** Lines 371-384: the score vector of a matched pair of components. *)
Definition cdx_pair (pkg1 pkg2 : Cdx.component) : list Q :=
  let author_score := text_consistency (Cdx.author pkg1) (Cdx.author pkg2) in
  let type_score := equal_cmp (Cdx.type pkg1) (Cdx.type pkg2) in
  let purl_score := purl_consistency (Cdx.purl pkg1) (Cdx.purl pkg2) in
  let cpe_score :=
    longest_common_substring_consistency_score (Cdx.cpe pkg1) (Cdx.cpe pkg2) in
  let license_score :=
    license_consistency (Cdx.licenses pkg1) (Cdx.licenses pkg2) in
  let version_score :=
    version_consistency (Cdx.version pkg1) (Cdx.version pkg2) in
  sign_corrected [author_score; type_score; purl_score; cpe_score;
                  license_score; version_score] [].

(** Lines 343-355 *)
Definition cdx_repo_info (metadata1 metadata2 : option Cdx.metadata) : list Q :=
  match metadata1, metadata2 with
  | Some metadata1, Some metadata2 =>
      let repo_name1 := Cdx.name_com metadata1 in
      let repo_name2 := Cdx.name_com metadata2 in
      let repo_name_score :=
        if check_empty repo_name1 && check_empty repo_name2
           || is_lit repo_name1 "" && is_lit repo_name2 "" then 0
        else if is_lit repo_name1 "NE" || is_lit repo_name2 "NE"
                || check_empty repo_name1 || check_empty repo_name2
                || is_lit repo_name1 "" || is_lit repo_name2 "" then 0
        else match repo_name1, repo_name2 with
             | Str a, Str b => jaro (PyStr.lower a) (PyStr.lower b)
             | _, _ => 0
             end in
      [repo_name_score;
       version_consistency (Cdx.version_com metadata1)
                           (Cdx.version_com metadata2)]
  | _, _ => [0; 0]
  end.

(** The loop of lines 363-384: [pkg_info] and [matched_pkg].  The key that
    [best_triple_match] returns is a key of [component2]. *)
Fixpoint cdx_loop (items1 : list (string * Cdx.component))
    (component2 : list (string * Cdx.component)) (triple_score_threshold : Q)
    (pkg_info : list cell) (matched_pkg : list string)
    : list cell * list string :=
  match items1 with
  | [] => (pkg_info, matched_pkg)
  | (k1, pkg1) :: rest =>
      match best_triple_match cdx pkg1 component2 triple_score_threshold with
      | (Some best_k2, _) =>
          match lookup best_k2 component2 with
          | Some pkg2 =>
              cdx_loop rest component2 triple_score_threshold
                (pkg_info ++ [Vec (cdx_pair pkg1 pkg2)])%list
                (matched_pkg ++ [k1])%list
          | None => cdx_loop rest component2 triple_score_threshold
                      pkg_info matched_pkg
          end
      | (None, _) =>
          cdx_loop rest component2 triple_score_threshold pkg_info matched_pkg
      end
  end.

(** [cdx_consistency] once the two files are parsed. *)
Definition cdx_consistency_data (tool1 tool2 reponame1 : string)
    (filedata1 filedata2 : cdx_data) (triple_score_threshold : Q) : scores :=
  let basic := "cdx_" ++ tool1 ++ "_" ++ tool2 ++ "_" ++ reponame1 in
  let repo := cdx_repo_info (metadata filedata1) (metadata filedata2) in
  match components filedata1, components filedata2 with
  | Items component1, Items component2 =>
      let '(pkg_info, matched_pkg) :=
        cdx_loop component1 component2 triple_score_threshold [] [] in
      let pkg_info :=
        if (List.length pkg_info =? 0)%nat then [Vec [0; 0; 0; 0; 0; 0]]
        else pkg_info in
      mk_scores basic repo pkg_info None
        [Z.of_nat (List.length component1); Z.of_nat (List.length component2);
         Z.of_nat (List.length matched_pkg)]
  | _, _ =>
      mk_scores basic repo [Vec [0; 0; 0; 0; 0; 0]] None [0; 0; 0]%Z
  end.

(** *** [spdx_consistency] *)

(** Lines 466-500: the checksum score of two files with the same name. *)
Definition checksum_score (f1 f2 : Spdx.file) : Q :=
  let cs1 := Spdx.checksums f1 in
  let cs2 := Spdx.checksums f2 in
  if (List.length cs1 =? 0)%nat || (List.length cs2 =? 0)%nat then 0
  else match cs1, cs2 with
  | [c1], [c2] =>
      let checksum_score :=
        equal_cmp (Spdx.checksumValue c1) (Spdx.checksumValue c2) in
      if Qeq_bool checksum_score 1 then checksum_score
      else if Qeq_bool checksum_score 0 then checksum_score
      else if Qeq_bool checksum_score (-1) then 1
      else checksum_score
  | _, _ =>
      fold_left
        (fun score c1 =>
           fold_left
             (fun score c2 =>
                if String.eqb (Spdx.algorithm c1) (Spdx.algorithm c2) then
                  let c := equal_cmp (Spdx.checksumValue c1)
                                     (Spdx.checksumValue c2) in
                  if Qeq_bool c (-1) then score + 1
                  else if Qeq_bool c 0 then score + 0
                  else score + c
                else score)
             cs2 score)
        cs1 0
      / inject_Z (Z.of_nat (Nat.max (List.length cs1) (List.length cs2)))
  end.

(** Lines 460-501: the inner loop over the files of the second document;
    the state is [(files_info, matched_files)]. *)
Fixpoint files_inner (key1 : string) (f1 : Spdx.file)
    (items2 : list (string * Spdx.file))
    (files_info : list cell) (matched_files : list string)
    : list cell * list string :=
  match items2 with
  | [] => (files_info, matched_files)
  | (_, f2) :: rest =>
      if negb (Qeq_bool (compareName (deal_filename (Spdx.file_name f1))
                                     (deal_filename (Spdx.file_name f2))) 0)
      then
        if existsb (String.eqb key1) matched_files
        then files_inner key1 f1 rest files_info matched_files
        else files_inner key1 f1 rest
               (files_info ++ [Vec [checksum_score f1 f2]])%list
               (matched_files ++ [key1])%list
      else files_inner key1 f1 rest files_info matched_files
  end.

(** Lines 455-501: the outer loop, with the size cap that breaks out of it.
    [len1] and [len2] are the sizes of the two file collections. *)
Fixpoint files_loop (items1 : list (string * Spdx.file)) (len1 len2 : nat)
    (files2 : list (string * Spdx.file))
    (files_info : list cell) (matched_files : list string)
    : list cell * list string :=
  match items1 with
  | [] => (files_info, matched_files)
  | (key1, f1) :: rest =>
      if (2000 <? len1)%nat || (2000 <? len2)%nat
      then (files_info, matched_files)
      else
        let '(files_info, matched_files) :=
          files_inner key1 f1 files2 files_info matched_files in
        files_loop rest len1 len2 files2 files_info matched_files
  end.

(** Lines 537-546 and 547-556: the sum of [f] over all pairs, with the
    counter of the reserved value [-1]. *)
Definition cross_sum (f : value -> value -> Q) (l1 l2 : list value) : Q * Q :=
  fold_left
    (fun acc c1 =>
       fold_left
         (fun acc c2 =>
            let c := f c1 c2 in
            if Qeq_bool c (-1) then (fst acc + 1, snd acc + -1)
            else (fst acc + f c1 c2, snd acc))
         l2 acc)
    l1 (0, 0).

Definition cross_mean (total : Q) (l1 l2 : list value) : Q :=
  let longer := Nat.max (List.length l1) (List.length l2) in
  if negb (longer =? 0)%nat then total / inject_Z (Z.of_nat longer) else 0.

(** Lines 528-568: the score vector of a matched pair of packages. *)
Definition spdx_pair (pkg1 pkg2 : Spdx.package) : list Q :=
  let originator_score :=
    text_consistency (Spdx.originator pkg1) (Spdx.originator pkg2) in
  let supplier_score :=
    text_consistency (Spdx.supplier pkg1) (Spdx.supplier pkg2) in
  let copyright_score :=
    text_consistency (Spdx.copyrightText pkg1) (Spdx.copyrightText pkg2) in
  let version_score :=
    version_consistency (Spdx.versionInfo pkg1) (Spdx.versionInfo pkg2) in
  let PVC_score :=
    equal_cmp (deal_PVC (Spdx.packageVerificationCode pkg1))
              (deal_PVC (Spdx.packageVerificationCode pkg2)) in
  let '(cpe1, purl1) := external_ref_proc (Spdx.externalRefs pkg1) in
  let '(cpe2, purl2) := external_ref_proc (Spdx.externalRefs pkg2) in
  let '(cpe_score, neg_cpe) :=
    cross_sum longest_common_substring_consistency_score cpe1 cpe2 in
  let cpe_score := cross_mean cpe_score cpe1 cpe2 in
  let '(purl_score, neg_purl) := cross_sum purl_consistency purl1 purl2 in
  let purl_score := cross_mean purl_score purl1 purl2 in
  let dL_score :=
    longest_common_substring_consistency_score
      (Spdx.downloadLocation pkg1) (Spdx.downloadLocation pkg2) in
  let licenseC_score :=
    license_consistency (Spdx.licenseConcluded pkg1)
                        (Spdx.licenseConcluded pkg2) in
  let licenseD_score :=
    license_consistency (Spdx.licenseDeclared pkg1)
                        (Spdx.licenseDeclared pkg2) in
  sign_corrected
    [originator_score; supplier_score; copyright_score; version_score;
     PVC_score; cpe_score; purl_score; dL_score; licenseC_score;
     licenseD_score]
    [neg_cpe; neg_purl].

(** The loop of lines 518-568: [pkg_info] and [matched_pkg]. *)
Fixpoint spdx_loop (items1 : list (string * Spdx.package))
    (pkgs2 : list (string * Spdx.package)) (triple_score_threshold : Q)
    (pkg_info : list cell) (matched_pkg : list string)
    : list cell * list string :=
  match items1 with
  | [] => (pkg_info, matched_pkg)
  | (k1, pkg1) :: rest =>
      match best_triple_match spdx pkg1 pkgs2 triple_score_threshold with
      | (Some best_k2, _) =>
          match lookup best_k2 pkgs2 with
          | Some pkg2 =>
              spdx_loop rest pkgs2 triple_score_threshold
                (pkg_info ++ [Vec (spdx_pair pkg1 pkg2)])%list
                (matched_pkg ++ [k1])%list
          | None => spdx_loop rest pkgs2 triple_score_threshold
                      pkg_info matched_pkg
          end
      | (None, _) =>
          spdx_loop rest pkgs2 triple_score_threshold pkg_info matched_pkg
      end
  end.

Definition is_NE {A : Type} (c : collection A) : bool :=
  match c with
  | NE => true
  | Items _ => false
  end.

(** [len(c.keys())]; used on dicts only. *)
Definition size {A : Type} (c : collection A) : nat :=
  match c with
  | NE => O
  | Items items => List.length items
  end.

Definition items_of {A : Type} (c : collection A) : list (string * A) :=
  match c with
  | NE => []
  | Items items => items
  end.

(** [spdx_consistency] once the two files are parsed; the assignments to
    [pkg_flag] and [files_flag] are those of lines 432-442. *)
Definition spdx_consistency_data (tool1 tool2 reponame1 : string)
    (filedata1 filedata2 : spdx_data) (triple_score_threshold : Q) : scores :=
  let pkgs1 := packages filedata1 in
  let pkgs2 := packages filedata2 in
  let files1 := files filedata1 in
  let files2 := files filedata2 in
  let pkg_flag := true in
  let pkg_flag := if is_NE pkgs1 || is_NE pkgs2 then false else pkg_flag in
  let files_flag := false in
  let files_flag :=
    if is_NE files1 || is_NE files2 then false else files_flag in
  let basic := "spdx_" ++ tool1 ++ "_" ++ tool2 ++ "_" ++ reponame1 in
  let files_info : list cell := [] in
  let statistic_info : list Z := [] in
  let '(files_info, statistic_info) :=
    if files_flag then
      let '(files_info, matched_files) :=
        files_loop (items_of files1) (size files1) (size files2)
                   (items_of files2) files_info [] in
      let files_info :=
        if (List.length files_info =? 0)%nat
        then (files_info ++ [Vec [0]])%list else files_info in
      (files_info,
       (statistic_info ++ [Z.of_nat (size files1); Z.of_nat (size files2);
                           Z.of_nat (List.length matched_files)])%list)
    else (files_info, statistic_info) in
  let '(files_info, statistic_info) :=
    if negb files_flag
    then ([Vec [0]], (statistic_info ++ [0; 0; 0]%Z)%list)
    else (files_info, statistic_info) in
  if negb pkg_flag then
    mk_scores basic (repeat 0 11) (repeat (Num 0) 10) (Some files_info)
              (statistic_info ++ [0; 0; 0]%Z)%list
  else
    let '(pkg_info, matched_pkg) :=
      spdx_loop (items_of pkgs1) (items_of pkgs2) triple_score_threshold
                [] [] in
    let pkg_info :=
      if (List.length pkg_info =? 0)%nat
      then (pkg_info ++ [Vec (repeat 0 10)])%list else pkg_info in
    mk_scores basic (repeat 0 11) pkg_info (Some files_info)
      (statistic_info ++ [Z.of_nat (size pkgs1); Z.of_nat (size pkgs2);
                          Z.of_nat (List.length matched_pkg)])%list.

(** *** Files, [compare_files] and the result row *)

(** Lines 244-252: the only handler is [except json.JSONDecodeError]; any
    other exception of [open] or [json.load] leaves the function. *)
Definition is_valid_json (fs : filesystem) (file_path : string)
    : result bool :=
  match fs file_path with
  | Missing => Ok false
  | Malformed => Ok false
  | Unreadable e =>
      match e with
      | JSONDecodeError => Ok false
      | _ => Raise e
      end
  | Json _ => Ok true
  end.

(** [os.path.basename] *)
Definition basename (path : string) : string :=
  last (PyStr.split "/" path) "".

(** [s[:s.rfind(".")]]; without a dot [rfind] is [-1] and the last
    character is cut. *)
Definition before_last_dot (s : string) : string :=
  match rev (PyStr.split "." s) with
  | _ :: (_ :: _) as init => String.concat "." (rev init)
  | _ => String.substring 0 (String.length s - 1) s
  end.

(** Returns [(filename, tool, reponame, data)]. *)
Definition parse_fileinfo (fs : filesystem) (path : string)
    : result (string * string * string * filedata) :=
  let filename := before_last_dot (basename path) in
  match PyStr.split "#" filename with
  | [_; tool; reponame] =>
      match fs path with
      | Missing => Raise FileNotFoundError
      | Malformed => Raise JSONDecodeError
      | Unreadable e => Raise e
      | Json data => Ok (filename, tool, reponame, data)
      end
  | _ => Raise ValueError
  end.

Definition spdx_consistency (fs : filesystem) (file1_path file2_path : string)
    (triple_score_threshold : Q) : result scores :=
  info1 <- parse_fileinfo fs file1_path ;;
  info2 <- parse_fileinfo fs file2_path ;;
  let '(_, tool1, reponame1, filedata1) := info1 in
  let '(_, tool2, _, filedata2) := info2 in
  match filedata1, filedata2 with
  | SpdxData d1, SpdxData d2 =>
      Ok (spdx_consistency_data tool1 tool2 reponame1 d1 d2
            triple_score_threshold)
  | _, _ => Raise KeyError
  end.

Definition cdx_consistency (fs : filesystem) (file1_path file2_path : string)
    (triple_score_threshold : Q) : result scores :=
  info1 <- parse_fileinfo fs file1_path ;;
  info2 <- parse_fileinfo fs file2_path ;;
  let '(_, tool1, reponame1, filedata1) := info1 in
  let '(_, tool2, _, filedata2) := info2 in
  match filedata1, filedata2 with
  | CdxData d1, CdxData d2 =>
      Ok (cdx_consistency_data tool1 tool2 reponame1 d1 d2
            triple_score_threshold)
  | _, _ => Raise KeyError
  end.

(** [compare_files]: the global counter [fileinvalid] goes in and comes
    out, with the value it has when the function returns or raises; the
    result is [Ok None] for the Python value [None].  An exception of
    [is_valid_json] is not handled here. *)
Definition compare_files (fs : filesystem) (fileinvalid : Z)
    (file1_path file2_path standard : string) (triple_score_threshold : Q)
    : result (option scores) * Z :=
  let filevalidflag := true in
  let '(filevalidflag, fileinvalid) :=
    if String.eqb file1_path file2_path then (false, (fileinvalid + 1)%Z)
    else (filevalidflag, fileinvalid) in
  match is_valid_json fs file1_path with
  | Raise e => (Raise e, fileinvalid)
  | Ok valid1 =>
      let '(filevalidflag, fileinvalid) :=
        if negb valid1 then (false, (fileinvalid + 1)%Z)
        else (filevalidflag, fileinvalid) in
      match is_valid_json fs file2_path with
      | Raise e => (Raise e, fileinvalid)
      | Ok valid2 =>
          let '(filevalidflag, fileinvalid) :=
            if negb valid2 then (false, (fileinvalid + 1)%Z)
            else (filevalidflag, fileinvalid) in
          if negb filevalidflag then (Ok None, fileinvalid)
          else if String.eqb standard "spdx" then
            (all_matched_scores <-
               spdx_consistency fs file1_path file2_path
                                triple_score_threshold ;;
             Ok (Some all_matched_scores), fileinvalid)
          else if String.eqb standard "cdx" then
            (all_matched_scores <-
               cdx_consistency fs file1_path file2_path
                               triple_score_threshold ;;
             Ok (Some all_matched_scores), fileinvalid)
          else (Raise UnboundLocalError, fileinvalid)
      end
  end.

(** *** [run_consistency_evaluator] *)

Definition tools_spdx : list string := ["syft"; "gh-sbom"; "ort"; "sbom-tool"].

Definition tools_cdx : list string :=
  ["syft"; "gh-sbom"; "ort"; "scancode"; "cdxgen"].

(** Lines 667 and 670: the path of the document of a tool for a
    repository. *)
Definition sbom_path (filepath standard tool line : string) : string :=
  filepath ++ "/" ++ standard ++ "#" ++ tool ++ "#" ++ line ++ ".json".

(** Line 680: the file the row of a pair of tools is appended to. *)
Definition pair_csv (result_path standard tool1 tool2 : string) : string :=
  result_path ++ "/" ++ standard ++ "-" ++ tool1 ++ "-" ++ tool2
  ++ "-package-consistency.csv".

(** The pairs [(tools[i], tools[j])] of the loops of lines 665-669, [j]
    running over [range(i+1, len(tools))]. *)
Definition tool_pairs (tools : list string) : list (string * string) :=
  flat_map
    (fun i =>
       map (fun j => (nth i tools "", nth j tools ""))
           (seq (i + 1) (List.length tools - (i + 1))))
    (seq 0 (List.length tools)).

(** A row appended to a file: the repository name and the numbers. *)
Record csv_row : Type := mk_row {
  row_file : string;
  row_name : string;
  row_numbers : list Q
}.

(** Lines 665-681 for one line of the list of repositories: the rows
    appended so far and [fileinvalid] are the state; an exception ends the
    run. *)
Fixpoint run_pairs (fs : filesystem)
    (standard result_path filepath line : string) (threshold : Q)
    (pairs : list (string * string)) (fileinvalid : Z) (out : list csv_row)
    : result (list csv_row) * Z :=
  match pairs with
  | [] => (Ok out, fileinvalid)
  | (tool1, tool2) :: rest =>
      let filepath1 := sbom_path filepath standard tool1 line in
      let filepath2 := sbom_path filepath standard tool2 line in
      match compare_files fs fileinvalid filepath1 filepath2 standard
                          threshold with
      | (Raise e, fileinvalid) => (Raise e, fileinvalid)
      | (Ok None, fileinvalid) =>
          run_pairs fs standard result_path filepath line threshold rest
                    fileinvalid out
      | (Ok (Some results), fileinvalid) =>
          match result_row standard results with
          | Raise e => (Raise e, fileinvalid)
          | Ok numbers =>
              run_pairs fs standard result_path filepath line threshold rest
                fileinvalid
                (out ++ [mk_row (pair_csv result_path standard tool1 tool2)
                                line numbers])%list
          end
      end
  end.

(** Lines 661-682: the lines that [readline] returns, until the empty
    string of the end of the file. *)
Fixpoint run_lines (fs : filesystem)
    (standard result_path filepath : string) (threshold : Q)
    (tools : list string) (lines : list string)
    (fileinvalid : Z) (out : list csv_row) : result (list csv_row) * Z :=
  match lines with
  | [] => (Ok out, fileinvalid)
  | line :: rest =>
      if String.eqb line "" then (Ok out, fileinvalid)
      else
        match run_pairs fs standard result_path filepath (PyStr.strip line)
                        threshold (tool_pairs tools) fileinvalid out with
        | (Raise e, fileinvalid) => (Raise e, fileinvalid)
        | (Ok out, fileinvalid) =>
            run_lines fs standard result_path filepath threshold tools rest
                      fileinvalid out
        end
  end.

(** [run_consistency_evaluator] on the lines of [repo_names]: the rows
    appended to the csv files after their headers, and [fileinvalid].  With
    another standard than the two, [tools] is not bound at line 641. *)
Definition run_consistency_evaluator (fs : filesystem)
    (standard result_path filepath : string) (lines : list string)
    (threshold : Q) (fileinvalid : Z) : result (list csv_row) * Z :=
  if String.eqb standard "spdx" then
    run_lines fs standard result_path filepath threshold tools_spdx lines
              fileinvalid []
  else if String.eqb standard "cdx" then
    run_lines fs standard result_path filepath threshold tools_cdx lines
              fileinvalid []
  else (Raise UnboundLocalError, fileinvalid).

(** *** Definitions used to state further properties *)

(** The form in which [compareName] compares a name: percent-decoded, freed
    of the scheme prefixes and of the spaces, lower-cased (lines 52-54). *)
Definition normalized_name (name : string) : string :=
  PyStr.lower (re_sub_del name_noise 0 (unquote name)).

(** A value that is a string and none of the markers of absence. *)
Definition present (v : value) : bool :=
  match v with
  | PyNone => false
  | Str s => negb (String.eqb s "" || String.eqb s "NE" || String.eqb s "NONE"
                   || String.eqb s "NOASSERTION")
  end.

(** Every character is a decimal digit. *)
Fixpoint all_digits (s : string) : bool :=
  match s with
  | EmptyString => true
  | String c r => PyStr.isdigit c && all_digits r
  end.

(** A version on which lines 235-238 return: [None], or a string of ASCII
    characters, at most 308 of them, so that every integer read from it is
    below [10 ^ 308] and has a float. *)
Definition plain_version (v : value) : bool :=
  match v with
  | PyNone => true
  | Str s => PyStr.isascii s && (String.length s <=? 308)%nat
  end.

(** [t] occurs in [s] as a run of consecutive characters. *)
Definition occurs_in (t s : string) : Prop :=
  exists pre post, s = pre ++ t ++ post.

(** The value of [longest_len] when the loops of lines 138-146 are over. *)
Definition table_longest_len (str1 str2 : string) : nat :=
  lcs_table str1 str2 (repeat O (S (String.length str2))) O.

(** [s] reversed onto [acc]. *)
Fixpoint rev_onto (s acc : string) : string :=
  match s with
  | EmptyString => acc
  | String c r => rev_onto r (String c acc)
  end.

(** Length of the longest common prefix. *)
Fixpoint common_prefix_len (x y : string) : nat :=
  match x, y with
  | String c x', String d y' =>
      if Ascii.eqb c d then S (common_prefix_len x' y') else O
  | _, _ => O
  end.

(** The cells of a row of [dp]: for the part [r1] of [str1] read so far
    (reversed) and every way to cut [str2] after the part [acc2] (reversed),
    the length of the common end of the two parts. *)
Fixpoint row_cells (r1 acc2 rest2 : string) : list nat :=
  common_prefix_len r1 acc2
  :: match rest2 with
     | EmptyString => []
     | String d rest => row_cells r1 (String d acc2) rest
     end.

(** The list a reference adds its locator to. *)
Definition cpe_locator (e : external_ref) : list value :=
  match e with
  | RefStr _ => []
  | RefObj referenceType referenceLocator =>
      if PyStr.contains "cpe" (match referenceType with
                               | Some t => t
                               | None => "NE"
                               end)
      then [referenceLocator] else []
  end.

Definition purl_locator (e : external_ref) : list value :=
  match e with
  | RefStr _ => []
  | RefObj referenceType referenceLocator =>
      let t := match referenceType with
               | Some t => t
               | None => "NE"
               end in
      if PyStr.contains "cpe" t then []
      else if PyStr.contains "purl" t then [referenceLocator] else []
  end.

(** A score vector of dimension [n] without a negative component. *)
Definition score_vector (n : nat) (c : cell) : Prop :=
  exists v, c = Vec v /\ List.length v = n /\ Forall (fun x => 0 <= x) v.

(** ** Properties *)

(** Case analysis on every condition of the goal. *)
Ltac case_conditions :=
  repeat match goal with
         | |- context [if ?c then _ else _] => destruct c
         end.

(** *** Comparisons on scores *)


Lemma Qlt_bool_false_iff (a b : Q) : Qlt_bool a b = false <-> b <= a.
Proof.
  unfold Qlt_bool. rewrite negb_false_iff. apply Qle_bool_iff.
Qed.


(** *** The semantic-version branch never returns *)

(** A [semver.Version] has its three numbers, so the loop of the branch runs
    at least once, and its first step hands two [int]s to [jaro]. *)
Lemma semver_loop_raises (v1 v2 : semver_version) (weights : list Q) :
  semver_loop (seq 0 (Nat.min (count_parts v1) (count_parts v2)))
              v1 v2 weights 0 = None.
Proof.
  destruct v1 as [m1 n1 p1 [pr1|] [b1|]], v2 as [m2 n2 p2 [pr2|] [b2|]];
    reflexivity.
Qed.

Lemma semver_branch_none (version1 version2 : string) :
  semver_branch version1 version2 = None.
Proof.
  unfold semver_branch.
  destruct (semver_is_valid version1 && semver_is_valid version2);
    [|reflexivity].
  destruct (semver_Version version1) as [v1|]; [|reflexivity].
  destruct (semver_Version version2) as [v2|]; [|reflexivity].
  cbv zeta. apply semver_loop_raises.
Qed.

(** Past its guards [version_consistency] is the dotted comparison. *)
Lemma version_consistency_dotted (version1 version2 : string) :
  check_empty (Str version1) = false ->
  check_empty (Str version2) = false ->
  String.eqb version1 "NE" = false ->
  String.eqb version2 "NE" = false ->
  String.eqb (PyStr.lower version1) (PyStr.lower version2) = false ->
  String.eqb version1 "" = false ->
  String.eqb version2 "" = false ->
  PyStr.contains "15.4.6" version1 = false ->
  PyStr.contains "15.4.6" version2 = false ->
  String.eqb (PyStr.lower (normalize_version version1))
             (PyStr.lower (normalize_version version2)) = false ->
  version_consistency (Str version1) (Str version2)
  = sum (split_diffs (normalize_version version1)
                     (normalize_version version2)).
Proof.
  intros E1 E2 N1 N2 L S1 S2 M1 M2 L'.
  unfold version_consistency. cbv zeta.
  rewrite E1, E2. cbn [is_lit andb orb].
  rewrite N1, N2, L, S1, S2, M1, M2, L'. cbn [orb].
  rewrite semver_branch_none. reflexivity.
Qed.

(** *** The code at the inputs where it leaves the specification *)

(** What line 238 computes at a numeric position whose two strings
    differ: the weight times the relative difference. *)
Lemma position_score_numeric (w : Q) (p1 p2 : string) :
  String.eqb p1 p2 = false ->
  check_digit p1 = true -> check_digit p2 = true ->
  (Z.max (PyStr.int p1) (PyStr.int p2) =? 0)%Z = false ->
  position_score w p1 p2
  = inject_Z (Z.abs (PyStr.int p1 - PyStr.int p2))
    / inject_Z (Z.max (PyStr.int p1) (PyStr.int p2)) * w.
Proof.
  intros E D1 D2 M. unfold position_score. rewrite E, D1, D2, M. reflexivity.
Qed.

(** C2.  In the dotted comparison of ["1.1"] and ["1.4"] the first position
    earns its full weight 0.8 and the second, numeric with maximum 4, is
    scored [|1-4|/4 * 0.2 = 0.15]: the weight times the relative difference,
    not the [0.2 * (1 - 3/4) = 0.05] of the claim.  The whole comparison
    returns 0.95.  Two unequal numeric strings that are both zero do score
    0. *)
Theorem version_numeric_position_scores_relative_difference :
  nth 0 (split_diffs "1.1" "1.4") 0 == 0.8
  /\ nth 1 (split_diffs "1.1" "1.4") 0 == 0.15
  /\ ~ nth 1 (split_diffs "1.1" "1.4") 0 == 0.2 * (1 - 3 / 4)
  /\ version_consistency (Str "1.1") (Str "1.4") == 0.95
  /\ nth 1 (split_diffs "1.0" "1.00") 0 == 0.
Proof.
  repeat split; try (vm_compute; reflexivity).
  - vm_compute. discriminate.
  - rewrite version_consistency_dotted by reflexivity.
    vm_compute. reflexivity.
Qed.

(** C9.  [version_consistency("1.2.3", "1.2.4")] is 0.925, not 0.9.  The
    semantic-version branch does not return: [semver.Version(version1)]
    takes the whole string for the major number, and [jaro] would be handed
    integers; the [except] swallows the error and the dotted comparison
    scores the third position [|3-4|/4 * 0.1 = 0.025]. *)
Theorem version_1_2_3_against_1_2_4 :
  semver_branch "1.2.3" "1.2.4" = None
  /\ split_diffs "1.2.3" "1.2.4" = [0.7; 0.2; 1 # 40]
  /\ version_consistency (Str "1.2.3") (Str "1.2.4") == 0.925
  /\ ~ version_consistency (Str "1.2.3") (Str "1.2.4") == 0.9.
Proof.
  split; [apply semver_branch_none|].
  split; [vm_compute; reflexivity|].
  rewrite version_consistency_dotted by reflexivity.
  split; vm_compute; [reflexivity | discriminate].
Qed.

(** C4.  With a repeated token the pairwise count of [license_consistency]
    exceeds the longer list: ["MIT MIT"] against ["MIT MIT MIT"] counts six
    equal pairs over a maximum length of three, and the score is 2. *)
Theorem license_consistency_duplicate_tokens_exceed_one :
  deal_license (LicVal (Str "MIT MIT")) = ["MIT"; "MIT"]
  /\ deal_license (LicVal (Str "MIT MIT MIT")) = ["MIT"; "MIT"; "MIT"]
  /\ license_consistency (LicVal (Str "MIT MIT")) (LicVal (Str "MIT MIT MIT"))
     == 2
  /\ ~ license_consistency (LicVal (Str "MIT MIT"))
                           (LicVal (Str "MIT MIT MIT")) <= 1.
Proof.
  repeat split; try (vm_compute; reflexivity).
  vm_compute. intro H. apply H. reflexivity.
Qed.

(** The equality test of lines 95-97 comes before the tests for the
    placeholders: a string that is not empty scores 1 against itself. *)
Lemma purl_consistency_same_string (p : string) :
  String.eqb p "" = false ->
  purl_consistency (Str p) (Str p) = 1.
Proof.
  intro H. unfold purl_consistency. cbn [truthy]. rewrite H.
  rewrite String.eqb_refl. reflexivity.
Qed.

(** C5.  [purl_consistency] returns 1, not 0, on two equal placeholders. *)
Theorem purl_consistency_equal_placeholders_score_one :
  purl_consistency (Str "NE") (Str "NE") = 1
  /\ purl_consistency (Str "NONE") (Str "NONE") = 1
  /\ purl_consistency (Str "NOASSERTION") (Str "noassertion") = 1.
Proof.
  repeat split; reflexivity.
Qed.

(** [files_flag] is [False] on every path to line 453: whatever the file
    collections are, [files_info] is the placeholder [[[0]]] and the three
    file counts are 0. *)
Lemma spdx_files_never_compared (tool1 tool2 reponame1 : string)
    (filedata1 filedata2 : spdx_data) (threshold : Q) :
  let r := spdx_consistency_data tool1 tool2 reponame1 filedata1 filedata2
                                 threshold in
  files_info r = Some [Vec [0]]
  /\ firstn 3 (statistic_info r) = [0; 0; 0]%Z.
Proof.
  unfold spdx_consistency_data.
  destruct (is_NE (files filedata1) || is_NE (files filedata2));
    cbn [negb];
    destruct (is_NE (packages filedata1) || is_NE (packages filedata2));
    cbn [negb]; try (split; reflexivity);
    destruct (spdx_loop _ _ _ _ _); split; reflexivity.
Qed.

(** C3.  Two documents whose file collections are present, hold one entry
    each and agree on the name and on the single checksum of that file: the
    result has no score vector for the file, only the placeholder, and the
    file counts are [0, 0, 0] instead of [1, 1, 1]. *)
Theorem spdx_present_file_collections_not_compared (threshold : Q) :
  let r := spdx_consistency_data "syft" "ort" "repo"
             Sample.doc_files Sample.doc_files threshold in
  size (files Sample.doc_files) = 1%nat
  /\ files_info r = Some [Vec [0]]
  /\ statistic_info r = [0; 0; 0; 0; 0; 0]%Z.
Proof.
  repeat split.
Qed.

(** C8.  When the packages of a document are the marker, [pkg_info] is a flat
    list of ten numbers, not a list holding one vector of ten, and the mean
    over its columns in [run_consistency_evaluator] raises [TypeError]. *)
Theorem spdx_missing_packages_pkg_info_is_flat (threshold : Q) :
  let r := spdx_consistency_data "syft" "ort" "repo"
             Sample.doc_no_packages Sample.doc_no_packages threshold in
  pkg_info r = [Num 0; Num 0; Num 0; Num 0; Num 0; Num 0; Num 0; Num 0;
                Num 0; Num 0]
  /\ pkg_info r <> [Vec [0; 0; 0; 0; 0; 0; 0; 0; 0; 0]]
  /\ repo_info r = [0; 0; 0; 0; 0; 0; 0; 0; 0; 0; 0]
  /\ column_means (pkg_info r) = Raise TypeError
  /\ result_row "spdx" r = Raise TypeError.
Proof.
  repeat split. discriminate.
Qed.

(** *** Versions that agree after normalisation *)

(** C7, amended.  For two version strings that are present (not [None],
    not a placeholder, not empty): when they are equal, ignoring case, once
    trimmed, freed of their spaces and of one leading [v] or [V], the score
    is 1, provided that they are already equal ignoring case or that neither
    holds ["15.4.6"]; and when they differ ignoring case and one of them
    holds ["15.4.6"], the score is 0, whatever the normalisation makes of
    them. *)
Theorem version_consistency_equal_after_normalisation
    (version1 version2 : string) :
  check_empty (Str version1) = false ->
  check_empty (Str version2) = false ->
  version1 <> "NE" -> version2 <> "NE" ->
  version1 <> "" -> version2 <> "" ->
  (PyStr.lower (normalize_version version1)
   = PyStr.lower (normalize_version version2) ->
   PyStr.lower version1 = PyStr.lower version2
   \/ (PyStr.contains "15.4.6" version1 = false
       /\ PyStr.contains "15.4.6" version2 = false) ->
   version_consistency (Str version1) (Str version2) = 1)
  /\ (PyStr.lower version1 <> PyStr.lower version2 ->
      PyStr.contains "15.4.6" version1 = true
      \/ PyStr.contains "15.4.6" version2 = true ->
      version_consistency (Str version1) (Str version2) = 0).
Proof.
  intros E1 E2 N1 N2 S1 S2.
  unfold version_consistency. cbv zeta.
  rewrite E1, E2. cbn [is_lit andb orb].
  apply String.eqb_neq in N1, N2, S1, S2.
  rewrite N1, N2. cbn [orb].
  split.
  - intros Hnorm Hraw.
    destruct (String.eqb (PyStr.lower version1) (PyStr.lower version2)) eqn:L;
      [reflexivity|].
    rewrite S1, S2. cbn [orb].
    destruct Hraw as [Hraw | [M1 M2]].
    + apply String.eqb_neq in L. contradiction.
    + rewrite M1, M2. cbn [orb].
      rewrite Hnorm, String.eqb_refl. reflexivity.
  - intros Hdiff Hmanual.
    apply String.eqb_neq in Hdiff. rewrite Hdiff.
    rewrite S1, S2. cbn [orb].
    destruct Hmanual as [M | M]; rewrite M;
      [|rewrite Bool.orb_true_r]; reflexivity.
Qed.

(** *** The file collections of an spdx pair *)

(** C6.  When either file collection has more than 2000 entries, the result
    holds no per-file score vector (only the placeholder), its three file
    counts are 0, and it is the result of the same pair without file
    collections: no file is looked at. *)
Theorem spdx_file_cap_skips_file_comparison (tool1 tool2 reponame1 : string)
    (filedata1 filedata2 : spdx_data) (threshold : Q) :
  (2000 < size (files filedata1) \/ 2000 < size (files filedata2))%nat ->
  let r := spdx_consistency_data tool1 tool2 reponame1 filedata1 filedata2
                                 threshold in
  files_info r = Some [Vec [0]]
  /\ firstn 3 (statistic_info r) = [0; 0; 0]%Z
  /\ r = spdx_consistency_data tool1 tool2 reponame1
           (mk_spdx_data (packages filedata1) NE)
           (mk_spdx_data (packages filedata2) NE) threshold.
Proof.
  intros _ r.
  destruct (spdx_files_never_compared tool1 tool2 reponame1
              filedata1 filedata2 threshold) as [Hinfo Hstat].
  split; [exact Hinfo|]. split; [exact Hstat|].
  subst r. unfold spdx_consistency_data. cbn [files packages is_NE orb].
  destruct (is_NE (files filedata1) || is_NE (files filedata2)); reflexivity.
Qed.

(** *** Pairs that are skipped *)

(** [is_valid_json] returns for a path that holds nothing, a JSON document
    or a file on which [json.load] raises [JSONDecodeError], and raises for
    every other failure of the reading. *)
Lemma is_valid_json_raises (fs : filesystem) (file_path : string) (e : exn) :
  is_valid_json fs file_path = Raise e <->
  fs file_path = Unreadable e /\ e <> JSONDecodeError.
Proof.
  unfold is_valid_json. split.
  - destruct (fs file_path) as [| |e'|d]; try discriminate.
    destruct e'; try discriminate; intro H; injection H as <-;
      (split; [reflexivity | discriminate]).
  - intros [-> Hne]. destruct e; try reflexivity. contradiction.
Qed.

(** X30.  What [compare_files] does keep of the rule on invalid pairs: when
    [is_valid_json] returns on both paths, and the two paths are the same or
    one of them holds no file or a file on which [json.load] raises
    [JSONDecodeError], the result is [None] and the pair is counted in
    [fileinvalid]. *)
Theorem compare_files_skips_pair_when_readable (fs : filesystem)
    (fileinvalid : Z) (file1_path file2_path standard : string) (threshold : Q)
    (valid1 valid2 : bool) :
  is_valid_json fs file1_path = Ok valid1 ->
  is_valid_json fs file2_path = Ok valid2 ->
  file1_path = file2_path \/ valid1 = false \/ valid2 = false ->
  fst (compare_files fs fileinvalid file1_path file2_path standard threshold)
  = Ok None
  /\ (fileinvalid
      < snd (compare_files fs fileinvalid file1_path file2_path standard
                           threshold))%Z.
Proof.
  intros V1 V2 H. unfold compare_files. rewrite V1, V2.
  destruct (String.eqb file1_path file2_path) eqn:E;
    destruct valid1, valid2; cbn; try (split; [reflexivity | lia]).
  exfalso. apply String.eqb_neq in E.
  destruct H as [H | [H | H]]; try contradiction; discriminate.
Qed.

(** An exception of [is_valid_json] on either path leaves [compare_files]:
    on the first path with [fileinvalid] as the test of the paths left it,
    on the second path after the first was judged. *)
Lemma compare_files_propagates (fs : filesystem) (fileinvalid : Z)
    (file1_path file2_path standard : string) (threshold : Q) (e : exn) :
  is_valid_json fs file1_path = Raise e
  \/ ((exists valid1, is_valid_json fs file1_path = Ok valid1)
      /\ is_valid_json fs file2_path = Raise e) ->
  fst (compare_files fs fileinvalid file1_path file2_path standard threshold)
  = Raise e.
Proof.
  unfold compare_files. intros [H | [[valid1 H1] H2]].
  - rewrite H. destruct (String.eqb file1_path file2_path); reflexivity.
  - rewrite H1, H2.
    destruct (String.eqb file1_path file2_path), valid1; reflexivity.
Qed.

(** C10.  A file that exists and whose bytes are not text is not parseable
    as JSON, but [is_valid_json] handles [JSONDecodeError] only: on such a
    file it raises [UnicodeDecodeError], [compare_files] raises with it where
    it should return [None], be the other path a sound document or the same
    path, and the run over the pairs of tools ends with the exception at the
    first pair. *)
Theorem compare_files_raises_on_undecodable_file (fileinvalid : Z)
    (standard : string) (threshold : Q) :
  let file1_path := "out/spdx#syft#repo.json" in
  let file2_path := "out/spdx#ort#repo.json" in
  Sample.fs_unreadable file1_path = Unreadable UnicodeDecodeError
  /\ is_valid_json Sample.fs_unreadable file1_path = Raise UnicodeDecodeError
  /\ is_valid_json Sample.fs_unreadable file2_path = Ok true
  /\ compare_files Sample.fs_unreadable fileinvalid file1_path file2_path
                   standard threshold
     = (Raise UnicodeDecodeError, fileinvalid)
  /\ compare_files Sample.fs_unreadable fileinvalid file2_path file1_path
                   standard threshold
     = (Raise UnicodeDecodeError, fileinvalid)
  /\ compare_files Sample.fs_unreadable fileinvalid file1_path file1_path
                   standard threshold
     = (Raise UnicodeDecodeError, (fileinvalid + 1)%Z)
  /\ fst (compare_files Sample.fs_unreadable fileinvalid file1_path
                        file2_path standard threshold) <> Ok None
  /\ fst (run_consistency_evaluator Sample.fs_unreadable "spdx" "results"
            "out" ["repo"] threshold fileinvalid)
     = Raise UnicodeDecodeError.
Proof.
  cbv zeta. repeat split; try reflexivity. discriminate.
Qed.

(** *** Scores lie between 0 and 1 *)

Section Range.

Hypothesis jaro_range : forall a b : string, 0 <= jaro a b <= 1.

Lemma has_char_app (c : ascii) (s t : string) :
  PyStr.has_char c (s ++ t) = PyStr.has_char c s || PyStr.has_char c t.
Proof.
  induction s as [|d r IH]; cbn; [reflexivity|].
  rewrite IH. apply orb_assoc.
Qed.

Lemma split_aux_no_sep (sep : ascii) (s cur : string) :
  PyStr.has_char sep cur = false ->
  Forall (fun p => PyStr.has_char sep p = false) (PyStr.split_aux sep s cur).
Proof.
  revert cur. induction s as [|c r IH]; intros cur Hcur; cbn.
  - constructor; [exact Hcur | constructor].
  - destruct (Ascii.eqb c sep) eqn:E.
    + constructor; [exact Hcur|]. apply IH. reflexivity.
    + apply IH. rewrite has_char_app, Hcur. cbn. rewrite E. reflexivity.
Qed.

Lemma nth_split_no_sep (sep : ascii) (s : string) (i : nat) :
  PyStr.has_char sep (nth i (PyStr.split sep s) "") = false.
Proof.
  destruct (nth_in_or_default i (PyStr.split sep s) "") as [Hin | Hd].
  - pose proof (split_aux_no_sep sep s "" eq_refl) as HF.
    rewrite Forall_forall in HF. apply HF. exact Hin.
  - rewrite Hd. reflexivity.
Qed.

Lemma int_acc_nonneg (s : string) (acc : Z) :
  check_digit s = true \/ s = "" -> PyStr.has_char "." s = false ->
  (0 <= acc)%Z -> (0 <= PyStr.int_acc s acc)%Z.
Proof.
  revert acc. induction s as [|c r IH]; intros acc Hd Hdot Hacc;
    cbn [PyStr.int_acc].
  - exact Hacc.
  - cbn in Hdot. apply orb_false_iff in Hdot. destruct Hdot as [Hc Hr].
    destruct Hd as [Hd | Hd]; [|discriminate].
    unfold check_digit in Hd. apply andb_true_iff in Hd. destruct Hd as [Hd _].
    apply andb_true_iff in Hd. destruct Hd as [Hcd Hrest].
    rewrite Hc, orb_false_r in Hcd.
    apply IH; [| exact Hr |].
    + destruct r as [|d r']; [right; reflexivity|].
      left. unfold check_digit. rewrite Hrest. reflexivity.
    + unfold PyStr.isdigit in Hcd. apply andb_true_iff in Hcd.
      destruct Hcd as [Hlo _]. apply Nat.leb_le in Hlo.
      unfold PyStr.digit_val. lia.
Qed.

Lemma int_nonneg (s : string) :
  check_digit s = true -> PyStr.has_char "." s = false -> (0 <= PyStr.int s)%Z.
Proof.
  intros Hd Hdot. apply int_acc_nonneg; [left; exact Hd | exact Hdot | lia].
Qed.

Lemma scaled_range (x w : Q) : 0 <= x <= 1 -> 0 <= w -> 0 <= x * w <= w.
Proof.
  intros [Hx0 Hx1] Hw. split.
  - apply Qmult_le_0_compat; assumption.
  - setoid_replace w with (1 * w) at 2 by ring.
    apply Qmult_le_compat_r; assumption.
Qed.

Lemma relative_difference_range (a b : Z) :
  (0 <= a)%Z -> (0 <= b)%Z -> (Z.max a b =? 0)%Z = false ->
  0 <= inject_Z (Z.abs (a - b)) / inject_Z (Z.max a b) <= 1.
Proof.
  intros Ha Hb Hm. apply Z.eqb_neq in Hm.
  assert (Hpos : 0 < inject_Z (Z.max a b)).
  { change 0 with (inject_Z 0). rewrite <- Zlt_Qlt. lia. }
  split.
  - apply Qle_shift_div_l; [exact Hpos|]. rewrite Qmult_0_l.
    change 0 with (inject_Z 0). rewrite <- Zle_Qle. lia.
  - apply Qle_shift_div_r; [exact Hpos|]. rewrite Qmult_1_l.
    rewrite <- Zle_Qle. lia.
Qed.

Lemma position_score_range (w : Q) (p1 p2 : string) :
  0 <= w -> PyStr.has_char "." p1 = false -> PyStr.has_char "." p2 = false ->
  0 <= position_score w p1 p2 <= w.
Proof.
  intros Hw H1 H2. unfold position_score.
  destruct (String.eqb p1 p2).
  - split; [exact Hw | apply Qle_refl].
  - destruct (check_digit p1) eqn:D1; destruct (check_digit p2) eqn:D2;
      cbn [andb]; try (apply scaled_range; [apply jaro_range | exact Hw]).
    destruct (Z.max (PyStr.int p1) (PyStr.int p2) =? 0)%Z eqn:M.
    + split; [apply Qle_refl | exact Hw].
    + apply scaled_range; [|exact Hw].
      apply relative_difference_range; auto using int_nonneg.
Qed.

Lemma split_diffs_range (version1 version2 : string) :
  0 <= sum (split_diffs version1 version2) <= 1.
Proof.
  unfold split_diffs. cbv zeta.
  set (P1 := PyStr.split "." version1). set (P2 := PyStr.split "." version2).
  assert (PS : forall w i, 0 <= w ->
            0 <= position_score w (nth i P1 "") (nth i P2 "") <= w).
  { intros w i Hw. apply position_score_range; [exact Hw | |];
      apply nth_split_no_sep. }
  pose proof (PS 1 0%nat ltac:(lra)) as A1.
  pose proof (PS 0.8 0%nat ltac:(lra)) as A2.
  pose proof (PS 0.7 0%nat ltac:(lra)) as A3.
  pose proof (PS 0.2 1%nat ltac:(lra)) as B.
  pose proof (PS 0.1 2%nat ltac:(lra)) as C.
  generalize (Nat.min (List.length P1) (List.length P2)) as n. intro n.
  destruct n as [|[|[|[|n]]]];
    cbn [Nat.leb Nat.eqb split_weights seq split_loop set_nth nth Nat.sub orb];
    repeat (match goal with
            | |- context [Qeq_bool ?a ?b] => destruct (Qeq_bool a b)
            end; cbn [set_nth nth]);
    cbn [sum fold_left]; lra.
Qed.

Lemma version_consistency_range (version1 version2 : value) :
  0 <= version_consistency version1 version2 <= 1.
Proof.
  unfold version_consistency. cbv zeta.
  rewrite ?semver_branch_none.
  case_conditions; try lra.
  destruct version1 as [|v1], version2 as [|v2]; try lra.
  rewrite semver_branch_none.
  case_conditions; try lra.
  apply split_diffs_range.
Qed.

Lemma purl_dict_score_range (p1_dict p2_dict : purl_dict) :
  0 <= purl_dict_score p1_dict p2_dict <= 1.
Proof.
  unfold purl_dict_score. cbv beta zeta.
  pose proof (version_consistency_range
                (Str (or_empty (purl_version p1_dict)))
                (Str (or_empty (purl_version p2_dict)))) as V.
  repeat match goal with
         | |- context [jaro ?a ?b] =>
             let x := fresh "j" in
             pose proof (jaro_range a b); set (x := jaro a b) in *;
             clearbody x
         end.
  split.
  - apply Qle_shift_div_l; [reflexivity | lra].
  - apply Qle_shift_div_r; [reflexivity | lra].
Qed.

Lemma purl_consistency_range (p1 p2 : value) :
  0 <= purl_consistency p1 p2 <= 1.
Proof.
  unfold purl_consistency.
  case_conditions; try lra.
  destruct p1 as [|a], p2 as [|b]; try lra.
  destruct (purl_from_string a), (purl_from_string b);
    auto using purl_dict_score_range, jaro_range.
Qed.

Lemma equal_cmp_range (v1 v2 : value) : 0 <= equal_cmp v1 v2 <= 1.
Proof.
  unfold equal_cmp. case_conditions; try lra.
  destruct v1, v2; case_conditions; lra.
Qed.

Lemma compareName_range (name1 name2 : string) :
  0 <= compareName name1 name2 <= 1.
Proof.
  apply equal_cmp_range.
Qed.

Lemma text_consistency_range (text1 text2 : value) :
  0 <= text_consistency text1 text2 <= 1.
Proof.
  unfold text_consistency. case_conditions; try lra.
  destruct text1, text2; case_conditions; try lra. apply jaro_range.
Qed.

(** Every cell of a row of the table [dp] is at most one more than the cells
    of the row before. *)
Lemma lcs_row_bound (c : ascii) (str2 : string) :
  forall (prev : list nat) (n : nat),
  Forall (fun x => x <= n)%nat prev ->
  Forall (fun x => x <= S n)%nat (lcs_row c str2 prev).
Proof.
  induction str2 as [|d r IH]; intros prev n HF; cbn [lcs_row].
  - constructor.
  - destruct prev as [|p prev']; [constructor|].
    inversion HF; subst. constructor; [|apply IH; assumption].
    destruct (Ascii.eqb c d); lia.
Qed.

Lemma fold_max_bound (row : list nat) :
  forall m n : nat,
  (m <= n)%nat -> Forall (fun x => x <= n)%nat row ->
  (fold_left Nat.max row m <= n)%nat.
Proof.
  induction row as [|x r IH]; intros m n Hm HF; cbn [fold_left].
  - exact Hm.
  - inversion HF; subst. apply IH; [lia | assumption].
Qed.

Lemma lcs_table_bound (str1 str2 : string) :
  forall (prev : list nat) (longest_len n : nat),
  Forall (fun x => x <= n)%nat prev -> (longest_len <= n)%nat ->
  (lcs_table str1 str2 prev longest_len <= n + String.length str1)%nat.
Proof.
  induction str1 as [|c r IH]; intros prev longest_len n HF Hl;
    cbn [lcs_table String.length].
  - lia.
  - cbv zeta.
    pose proof (lcs_row_bound c str2 prev n HF) as Hrow.
    specialize (IH (O :: lcs_row c str2 prev)
                   (fold_left Nat.max (lcs_row c str2 prev) longest_len)
                   (S n)).
    assert (H1 : Forall (fun x => x <= S n)%nat (O :: lcs_row c str2 prev)).
    { constructor; [lia | exact Hrow]. }
    assert (H2 : (fold_left Nat.max (lcs_row c str2 prev) longest_len
                  <= S n)%nat).
    { apply fold_max_bound; [lia | exact Hrow]. }
    specialize (IH H1 H2). lia.
Qed.

Lemma ratio_range (k m : nat) :
  (k <= m)%nat -> (m =? 0)%nat = false ->
  0 <= inject_Z (Z.of_nat k) / inject_Z (Z.of_nat m) <= 1.
Proof.
  intros Hk Hm. apply Nat.eqb_neq in Hm.
  assert (Hpos : 0 < inject_Z (Z.of_nat m)).
  { change 0 with (inject_Z 0). rewrite <- Zlt_Qlt. lia. }
  split.
  - apply Qle_shift_div_l; [exact Hpos|]. rewrite Qmult_0_l.
    change 0 with (inject_Z 0). rewrite <- Zle_Qle. lia.
  - apply Qle_shift_div_r; [exact Hpos|]. rewrite Qmult_1_l.
    rewrite <- Zle_Qle. lia.
Qed.

Lemma longest_common_substring_consistency_score_range (str1 str2 : value) :
  0 <= longest_common_substring_consistency_score str1 str2 <= 1.
Proof.
  unfold longest_common_substring_consistency_score.
  case_conditions; try lra.
  destruct str1 as [|a], str2 as [|b]; try lra.
  destruct (String.eqb a b); [lra|]. cbv zeta.
  destruct (Nat.max (String.length (unquote a)) (String.length (unquote b))
            =? 0)%nat eqn:M; [lra|].
  apply ratio_range; [|exact M].
  pose proof (lcs_table_bound (unquote a) (unquote b)
                (repeat O (S (String.length (unquote b)))) O O) as H.
  assert (HF : Forall (fun x => x <= 0)%nat
                      (repeat O (S (String.length (unquote b))))).
  { apply Forall_forall. intros x Hx. apply repeat_spec in Hx. lia. }
  specialize (H HF (Nat.le_refl _)). lia.
Qed.

(** *** Licenses without a repeated token *)

(** The inner loop of lines 325-326 for a token [l1]. *)
Lemma pair_row_absent (l1 : string) (license_list2 : list string) :
  ~ In l1 license_list2 ->
  forall score : Q,
  fold_left (fun score l2 => score + (if String.eqb l1 l2 then 1 else 0))
            license_list2 score == score.
Proof.
  induction license_list2 as [|y r IH]; intros Hnot score; cbn [fold_left].
  - reflexivity.
  - destruct (String.eqb l1 y) eqn:E.
    + apply String.eqb_eq in E. exfalso. apply Hnot. left. symmetry. exact E.
    + rewrite IH by (intro H; apply Hnot; right; exact H). ring.
Qed.

Lemma pair_row_range (l1 : string) (license_list2 : list string) :
  NoDup license_list2 ->
  forall score : Q,
  score
  <= fold_left (fun score l2 => score + (if String.eqb l1 l2 then 1 else 0))
               license_list2 score
  <= score + 1.
Proof.
  induction 1 as [|y r Hy Hr IH]; intro score; cbn [fold_left].
  - lra.
  - destruct (String.eqb l1 y) eqn:E.
    + apply String.eqb_eq in E. subst y.
      rewrite (pair_row_absent l1 r Hy). lra.
    + specialize (IH (score + 0)). lra.
Qed.

Lemma pair_count_range (license_list1 license_list2 : list string) :
  NoDup license_list2 ->
  0 <= pair_count license_list1 license_list2
  <= inject_Z (Z.of_nat (List.length license_list1)).
Proof.
  intro Hnd. unfold pair_count.
  assert (G : forall score : Q,
             score
             <= fold_left
                  (fun score l1 =>
                     fold_left
                       (fun score l2 =>
                          score + (if String.eqb l1 l2 then 1 else 0))
                       license_list2 score)
                  license_list1 score
             <= score + inject_Z (Z.of_nat (List.length license_list1))).
  { induction license_list1 as [|x r IH]; intro score;
      cbn [fold_left List.length].
    - change (inject_Z (Z.of_nat 0)) with 0. lra.
    - pose proof (pair_row_range x license_list2 Hnd score) as Hx.
      specialize (IH (fold_left
                        (fun score l2 =>
                           score + (if String.eqb x l2 then 1 else 0))
                        license_list2 score)).
      rewrite Nat2Z.inj_succ, <- Z.add_1_r, inject_Z_plus.
      change (inject_Z 1) with 1. lra. }
  specialize (G 0). lra.
Qed.

(** When the tokens of the second license are pairwise distinct the score
    of [license_consistency] is between 0 and 1. *)
Lemma license_consistency_range (license1 license2 : license) :
  NoDup (deal_license license2) ->
  0 <= license_consistency license1 license2 <= 1.
Proof.
  intro Hnd. unfold license_consistency. cbv zeta.
  destruct (lic_empty license1 && lic_empty license2
            || lic_lit license1 "" && lic_lit license2 ""); [lra|].
  destruct (lic_lit license1 "NE" || lic_lit license2 "NE"
            || lic_empty license1 || lic_empty license2
            || lic_lit license1 "" || lic_lit license2 ""); [lra|].
  destruct (license_eqb license1 license2); [lra|].
  destruct ((List.length (deal_license license1) =? 0)%nat
            || (List.length (deal_license license2) =? 0)%nat) eqn:E0; [lra|].
  apply orb_false_iff in E0. destruct E0 as [E1 _]. apply Nat.eqb_neq in E1.
  destruct (pair_count_range (deal_license license1) (deal_license license2)
              Hnd) as [H0 H1].
  set (n1 := List.length (deal_license license1)) in *.
  set (n2 := List.length (deal_license license2)) in *.
  assert (Hpos : 0 < inject_Z (Z.of_nat (Nat.max n1 n2))).
  { change 0 with (inject_Z 0). rewrite <- Zlt_Qlt. lia. }
  assert (Hmax : inject_Z (Z.of_nat n1) <= inject_Z (Z.of_nat (Nat.max n1 n2))).
  { rewrite <- Zle_Qle. lia. }
  split.
  - apply Qle_shift_div_l; [exact Hpos | lra].
  - apply Qle_shift_div_r; [exact Hpos | lra].
Qed.




(** *** The scan of [best_triple_match] *)




End Range.

(** ** Further properties *)

Section Further.

(** *** Equality and names *)

(** X1.  [equal_cmp] is symmetric. *)
Theorem equal_cmp_symmetric (v1 v2 : value) :
  equal_cmp v1 v2 = equal_cmp v2 v1.
Proof.
  unfold equal_cmp, check_empty, is_lit.
  destruct v1 as [|a], v2 as [|b]; try reflexivity.
  - destruct (String.eqb b "NONE"), (String.eqb b "NOASSERTION"),
      (String.eqb b ""), (String.eqb b "NE"); reflexivity.
  - destruct (String.eqb a "NONE"), (String.eqb a "NOASSERTION"),
      (String.eqb a ""), (String.eqb a "NE"); reflexivity.
  - rewrite (String.eqb_sym (PyStr.lower a) (PyStr.lower b)).
    destruct (String.eqb a "NONE"), (String.eqb a "NOASSERTION"),
      (String.eqb b "NONE"), (String.eqb b "NOASSERTION"),
      (String.eqb a ""), (String.eqb b ""), (String.eqb a "NE"),
      (String.eqb b "NE"); reflexivity.
Qed.

(** X2.  [equal_cmp] returns 1 exactly on two present strings that are equal
    ignoring case, and 0 otherwise. *)
Theorem equal_cmp_one_iff (v1 v2 : value) :
  (equal_cmp v1 v2 = 1
   <-> exists a b, v1 = Str a /\ v2 = Str b
                   /\ present v1 = true /\ present v2 = true
                   /\ PyStr.lower a = PyStr.lower b)
  /\ (equal_cmp v1 v2 = 0 \/ equal_cmp v1 v2 = 1).
Proof.
  unfold equal_cmp, present, check_empty, is_lit.
  destruct v1 as [|a], v2 as [|b]; cbn [andb orb].
  - split; [split; [discriminate|] | left; reflexivity].
    intros (x & y & H & _). discriminate.
  - split; [split | left; case_conditions; reflexivity].
    + case_conditions; discriminate.
    + intros (x & y & H & _). discriminate.
  - split; [split | left; case_conditions; reflexivity].
    + case_conditions; discriminate.
    + intros (x & y & _ & H & _). discriminate.
  - destruct (String.eqb a "NONE") eqn:A1, (String.eqb a "NOASSERTION") eqn:A2,
      (String.eqb b "NONE") eqn:B1, (String.eqb b "NOASSERTION") eqn:B2,
      (String.eqb a "") eqn:A3, (String.eqb b "") eqn:B3,
      (String.eqb a "NE") eqn:A4, (String.eqb b "NE") eqn:B4;
      cbn [andb orb negb];
      try (split; [split; [discriminate|] | left; reflexivity];
           intros (x & y & Hx & Hy & Hp1 & Hp2 & _);
           inversion Hx; inversion Hy; subst x y;
           rewrite ?A1, ?A2, ?A3, ?A4, ?B1, ?B2, ?B3, ?B4 in Hp1, Hp2;
           cbn in Hp1, Hp2; discriminate).
    destruct (String.eqb (PyStr.lower a) (PyStr.lower b)) eqn:L.
    + split; [split | right; reflexivity].
      * intros _. exists a, b. apply String.eqb_eq in L.
        repeat split; try reflexivity; exact L.
      * reflexivity.
    + split; [split; [discriminate|] | left; reflexivity].
      intros (x & y & Hx & Hy & _ & _ & Hl).
      inversion Hx; inversion Hy; subst x y.
      apply String.eqb_neq in L. contradiction.
Qed.

Lemma lower_char_not_upper (c : ascii) :
  PyStr.is_upper (PyStr.lower_char c) = false.
Proof.
  destruct c as [[] [] [] [] [] [] [] []]; reflexivity.
Qed.

Lemma lower_idempotent (s : string) :
  PyStr.lower (PyStr.lower s) = PyStr.lower s.
Proof.
  induction s as [|c r IH]; cbn [PyStr.lower]; [reflexivity|].
  rewrite IH. f_equal.
  unfold PyStr.lower_char at 1. rewrite lower_char_not_upper. reflexivity.
Qed.

(** A lower-cased string is none of the upper-case markers. *)
Lemma lower_not_marker (s : string) :
  String.eqb (PyStr.lower s) "NE" = false
  /\ String.eqb (PyStr.lower s) "NONE" = false
  /\ String.eqb (PyStr.lower s) "NOASSERTION" = false.
Proof.
  destruct s as [|c r]; [repeat split|].
  cbn [PyStr.lower]. pose proof (lower_char_not_upper c) as H.
  repeat split; apply String.eqb_neq; intro E; inversion E as [[Hc Hr]];
    rewrite Hc in H; discriminate.
Qed.

(** X3.  [compareName] is the equality of the two normalised names, except
    that a name whose normalised form is empty matches nothing, itself
    included. *)
Theorem compareName_compares_normalized_names (name1 name2 : string) :
  compareName name1 name2
  = if String.eqb (normalized_name name1) ""
       || String.eqb (normalized_name name2) "" then 0
    else if String.eqb (normalized_name name1) (normalized_name name2) then 1
    else 0.
Proof.
  unfold compareName. cbv zeta.
  change (PyStr.lower (re_sub_del name_noise 0 (unquote name1)))
    with (normalized_name name1).
  change (PyStr.lower (re_sub_del name_noise 0 (unquote name2)))
    with (normalized_name name2).
  assert (I1 : PyStr.lower (normalized_name name1) = normalized_name name1)
    by apply lower_idempotent.
  assert (I2 : PyStr.lower (normalized_name name2) = normalized_name name2)
    by apply lower_idempotent.
  destruct (lower_not_marker (re_sub_del name_noise 0 (unquote name1)))
    as (A1 & A2 & A3).
  destruct (lower_not_marker (re_sub_del name_noise 0 (unquote name2)))
    as (B1 & B2 & B3).
  fold (normalized_name name1) in A1, A2, A3.
  fold (normalized_name name2) in B1, B2, B3.
  unfold equal_cmp, check_empty, is_lit.
  rewrite A1, A2, A3, B1, B2, B3, I1, I2. cbn [andb orb].
  destruct (String.eqb (normalized_name name1) ""),
    (String.eqb (normalized_name name2) ""); reflexivity.
Qed.

Lemma first_match_space (r : string) :
  first_match name_noise (String " " r) = Some 1%nat.
Proof.
  destruct r; reflexivity.
Qed.

Lemma re_sub_del_no_space (s : string) :
  forall skip : nat,
  PyStr.has_char " " (re_sub_del name_noise skip s) = false.
Proof.
  induction s as [|c r IH]; intro skip; cbn [re_sub_del]; [reflexivity|].
  destruct skip as [|k]; [|apply IH].
  destruct (Ascii.eqb c " ") eqn:E.
  - apply Ascii.eqb_eq in E. subst c. rewrite first_match_space. apply IH.
  - destruct (first_match name_noise (String c r)) as [[|k]|];
      try apply IH; cbn [PyStr.has_char]; rewrite E; apply IH.
Qed.

Lemma has_space_lower (s : string) :
  PyStr.has_char " " (PyStr.lower s) = PyStr.has_char " " s.
Proof.
  induction s as [|c r IH]; cbn [PyStr.lower PyStr.has_char]; [reflexivity|].
  rewrite IH. f_equal.
  destruct c as [[] [] [] [] [] [] [] []]; reflexivity.
Qed.

(** X4.  No space is left in a normalised name: the names that
    [compareName] compares hold none. *)
Theorem normalized_name_has_no_space (name : string) :
  PyStr.has_char " " (normalized_name name) = false.
Proof.
  unfold normalized_name. rewrite has_space_lower. apply re_sub_del_no_space.
Qed.

(** *** Versions *)

(** X5.  The semantic-version branch of [version_consistency] returns for no
    pair of strings: control always reaches the dotted comparison of line
    216. *)
Theorem semver_branch_never_returns (version1 version2 : string) :
  semver_branch version1 version2 = None.
Proof.
  unfold semver_branch.
  destruct (semver_is_valid version1 && semver_is_valid version2);
    [|reflexivity].
  destruct (semver_Version version1) as [v1|]; [|reflexivity].
  destruct (semver_Version version2) as [v2|]; [|reflexivity].
  destruct v1 as [m1 n1 p1 [pr1|] [b1|]], v2 as [m2 n2 p2 [pr2|] [b2|]];
    reflexivity.
Qed.

(** X6.  In the dotted comparison [diffs] keeps three entries, and a position
    that does not earn its full weight leaves every later position at 0. *)
Theorem dotted_comparison_cascade (version1 version2 : string) :
  let d := split_diffs version1 version2 in
  let w := split_weights
             (Nat.min (List.length (PyStr.split "." version1))
                      (List.length (PyStr.split "." version2))) in
  List.length d = 3%nat
  /\ (~ nth 0 d 0 == nth 0 w 0 -> nth 1 d 0 = 0 /\ nth 2 d 0 = 0)
  /\ (~ nth 1 d 0 == nth 1 w 0 -> nth 2 d 0 = 0).
Proof.
  unfold split_diffs. cbv zeta.
  generalize (PyStr.split "." version1) as P1.
  generalize (PyStr.split "." version2) as P2. intros P2 P1.
  generalize (Nat.min (List.length P1) (List.length P2)) as n. intro n.
  destruct n as [|[|[|[|n]]]];
    cbn [Nat.leb Nat.eqb split_weights seq split_loop set_nth nth Nat.sub orb];
    repeat match goal with
           | |- context [Qeq_bool ?a ?b] =>
               let E := fresh "E" in
               destruct (Qeq_bool a b) eqn:E; cbn [set_nth nth] in *
           end;
    cbn [List.length nth];
    (split; [reflexivity|]); split; intro H;
    try (split; reflexivity); try reflexivity;
    try (exfalso; apply H; apply Qeq_bool_iff; assumption);
    match goal with
    | E : Qeq_bool 0 _ = true |- _ => vm_compute in E; discriminate E
    end.
Qed.

(** The parts of a split hold no separator, so a part that passes
    [check_digit] is a string of digits. *)
Lemma check_digit_without_dot (p : string) :
  check_digit p = true -> PyStr.has_char "." p = false ->
  all_digits p = true /\ p <> "".
Proof.
  intros Hd Hdot. unfold check_digit in Hd.
  apply andb_true_iff in Hd. destruct Hd as [Hall Hne].
  split.
  - clear Hne. induction p as [|c r IH]; [reflexivity|].
    cbn [PyStr.has_char] in Hdot. apply orb_false_iff in Hdot.
    destruct Hdot as [Hc Hr].
    apply andb_true_iff in Hall. destruct Hall as [Hcd Hrest].
    rewrite Hc, orb_false_r in Hcd. cbn [all_digits]. rewrite Hcd.
    apply IH; assumption.
  - intro E. subst p. discriminate.
Qed.

Lemma length_snoc (s : string) (c : ascii) :
  String.length (s ++ String c "") = S (String.length s).
Proof.
  induction s as [|d r IH]; cbn; [reflexivity | rewrite IH; reflexivity].
Qed.

(** No field of a split is longer than the string. *)
Lemma split_aux_length (sep : ascii) (s cur : string) :
  Forall (fun p => (String.length p <= String.length cur + String.length s)%nat)
         (PyStr.split_aux sep s cur).
Proof.
  revert cur. induction s as [|c r IH]; intro cur; cbn [PyStr.split_aux].
  - constructor; [cbn; lia | constructor].
  - destruct (Ascii.eqb c sep).
    + constructor; [lia|].
      eapply Forall_impl; [|apply (IH "")]. cbn. intros p Hp. lia.
    + eapply Forall_impl; [|apply (IH (cur ++ String c ""))].
      cbn beta. intros p Hp. rewrite length_snoc in Hp. cbn. lia.
Qed.

Lemma nth_split_length (sep : ascii) (s : string) (i : nat) :
  (String.length (nth i (PyStr.split sep s) "") <= String.length s)%nat.
Proof.
  destruct (nth_in_or_default i (PyStr.split sep s) "") as [Hin | Hd].
  - pose proof (split_aux_length sep s "") as HF.
    rewrite Forall_forall in HF. apply (HF _ Hin).
  - rewrite Hd. cbn. lia.
Qed.

Lemma lstrip_length (s : string) :
  (String.length (PyStr.lstrip s) <= String.length s)%nat.
Proof.
  induction s as [|c r IH]; cbn [PyStr.lstrip]; [lia|].
  destruct (PyStr.isspace c); cbn [String.length]; lia.
Qed.

Lemma rstrip_length (s : string) :
  (String.length (PyStr.rstrip s) <= String.length s)%nat.
Proof.
  induction s as [|c r IH]; cbn [PyStr.rstrip]; [lia|].
  destruct (PyStr.rstrip r); [destruct (PyStr.isspace c)|];
    cbn [String.length] in *; lia.
Qed.

Lemma remove_char_length (c : ascii) (s : string) :
  (String.length (PyStr.remove_char c s) <= String.length s)%nat.
Proof.
  induction s as [|d r IH]; cbn [PyStr.remove_char]; [lia|].
  destruct (Ascii.eqb d c); cbn [String.length]; lia.
Qed.

Lemma drop_length (n : nat) (s : string) :
  (String.length (PyStr.drop n s) <= String.length s)%nat.
Proof.
  revert s. induction n as [|k IH]; intro s; [cbn; lia|].
  destruct s as [|c r]; cbn [PyStr.drop String.length]; [lia|].
  specialize (IH r). lia.
Qed.

(** Lines 171-176 do not make a version longer. *)
Lemma normalize_version_length (version : string) :
  (String.length (normalize_version version) <= String.length version)%nat.
Proof.
  unfold normalize_version, PyStr.strip. cbv zeta.
  pose proof (lstrip_length version) as H1.
  pose proof (rstrip_length (PyStr.lstrip version)) as H2.
  pose proof (remove_char_length " " (PyStr.rstrip (PyStr.lstrip version)))
    as H3.
  pose proof (drop_length 1 (PyStr.remove_char " "
                               (PyStr.rstrip (PyStr.lstrip version)))) as H4.
  destruct (_ || _); lia.
Qed.

(** The value of a string of [n] digits is below [10 ^ n]. *)
Lemma int_acc_bound (s : string) (acc : Z) :
  all_digits s = true -> (0 <= acc)%Z ->
  (0 <= PyStr.int_acc s acc
   < (acc + 1) * 10 ^ Z.of_nat (String.length s))%Z.
Proof.
  revert acc. induction s as [|c r IH]; intros acc Hd Hacc;
    cbn [PyStr.int_acc String.length].
  - change (10 ^ Z.of_nat 0)%Z with 1%Z. lia.
  - cbn [all_digits] in Hd. apply andb_true_iff in Hd.
    destruct Hd as [Hc Hr].
    unfold PyStr.isdigit in Hc. apply andb_true_iff in Hc.
    destruct Hc as [Hlo Hhi]. apply Nat.leb_le in Hlo, Hhi.
    assert (Hv : (0 <= PyStr.digit_val c <= 9)%Z)
      by (unfold PyStr.digit_val; lia).
    specialize (IH (10 * acc + PyStr.digit_val c)%Z Hr ltac:(lia)).
    rewrite Nat2Z.inj_succ, Z.pow_succ_r by lia.
    assert (Hp : (0 < 10 ^ Z.of_nat (String.length r))%Z)
      by (apply Z.pow_pos_nonneg; lia).
    nia.
Qed.

Lemma int_bound (s : string) :
  all_digits s = true ->
  (0 <= PyStr.int s < 10 ^ Z.of_nat (String.length s))%Z.
Proof.
  intro Hd. pose proof (int_acc_bound s 0 Hd ltac:(lia)) as H.
  unfold PyStr.int. lia.
Qed.

(** A component of a version of at most [n] characters that passes
    [check_digit] has a value below [10 ^ n]. *)
Lemma dotted_part_bound (version : string) (i n : nat) :
  (String.length version <= n)%nat ->
  check_digit (nth i (PyStr.split "." version) "") = true ->
  (0 <= PyStr.int (nth i (PyStr.split "." version) "") < 10 ^ Z.of_nat n)%Z.
Proof.
  intros Hlen Hd.
  pose proof (nth_split_no_sep "." version i) as Hdot.
  destruct (check_digit_without_dot _ Hd Hdot) as [H1 _].
  pose proof (int_bound _ H1) as [H0 Hb].
  pose proof (nth_split_length "." version i) as Hl.
  split; [exact H0|].
  eapply Z.lt_le_trans; [exact Hb|].
  apply Z.pow_le_mono_r; lia.
Qed.

(** X7.  In a version of ASCII characters, at most 4300 of them, every
    string that lines 235-238 convert with [int] is a string of decimal
    digits that is not empty and has at most 4300 characters, which [int]
    accepts; its value is not negative and below 10 to the power of its
    length. *)
Theorem dotted_parts_are_integer_literals (version : string) (i : nat) :
  PyStr.isascii version = true ->
  (String.length version <= 4300)%nat ->
  check_digit (nth i (PyStr.split "." version) "") = true ->
  let part := nth i (PyStr.split "." version) "" in
  all_digits part = true
  /\ part <> ""
  /\ (String.length part <= 4300)%nat
  /\ (0 <= PyStr.int part < 10 ^ Z.of_nat (String.length part))%Z.
Proof.
  intros _ Hlen Hd part.
  pose proof (nth_split_no_sep "." version i) as Hdot.
  destruct (check_digit_without_dot _ Hd Hdot) as [H1 H2].
  pose proof (nth_split_length "." version i) as Hl.
  split; [exact H1|]. split; [exact H2|].
  split; [subst part; lia|]. apply int_bound. exact H1.
Qed.

(** X8.  A version that is [None] or a placeholder on either side scores 0,
    and so does the empty string against a string that is not empty; two
    empty strings score 1. *)
Theorem version_consistency_absent_sides (version1 version2 : value) :
  (check_empty version1 = true \/ check_empty version2 = true
   \/ is_lit version1 "NE" = true \/ is_lit version2 "NE" = true ->
   version_consistency version1 version2 = 0)
  /\ (forall s, s <> "" ->
        version_consistency (Str "") (Str s) = 0
        /\ version_consistency (Str s) (Str "") = 0)
  /\ version_consistency (Str "") (Str "") = 1.
Proof.
  split; [|split; [|reflexivity]].
  - intro H. unfold version_consistency.
    destruct (check_empty version1), (check_empty version2),
      (is_lit version1 "NE"), (is_lit version2 "NE"); cbn [andb orb];
      try reflexivity.
    destruct H as [H | [H | [H | H]]]; discriminate.
  - intros s Hs.
    assert (L : String.eqb (PyStr.lower s) "" = false).
    { apply String.eqb_neq. destruct s; [congruence | discriminate]. }
    unfold version_consistency, check_empty, is_lit. cbn [andb orb].
    change (PyStr.lower "") with "".
    rewrite (String.eqb_sym "" (PyStr.lower s)), L.
    change (String.eqb "" "") with true. cbn [orb].
    rewrite orb_true_r.
    split; case_conditions; reflexivity.
Qed.

Lemma position_score_symmetric (w : Q) (p1 p2 : string) :
  (forall a b, jaro a b = jaro b a) ->
  position_score w p1 p2 = position_score w p2 p1.
Proof.
  intro Hj. unfold position_score.
  rewrite (String.eqb_sym p2 p1), (andb_comm (check_digit p2)),
    (Z.max_comm (PyStr.int p2)), (Hj (PyStr.lower p2)).
  replace (Z.abs (PyStr.int p2 - PyStr.int p1))
    with (Z.abs (PyStr.int p1 - PyStr.int p2)) by lia.
  destruct (String.eqb p1 p2); [|reflexivity].
  reflexivity.
Qed.

Lemma split_diffs_symmetric (version1 version2 : string) :
  (forall a b, jaro a b = jaro b a) ->
  split_diffs version1 version2 = split_diffs version2 version1.
Proof.
  intro Hj. unfold split_diffs. cbv zeta.
  rewrite (Nat.min_comm (List.length (PyStr.split "." version2))).
  generalize (Nat.min (List.length (PyStr.split "." version1))
                      (List.length (PyStr.split "." version2))) as n.
  intro n.
  generalize (seq 0 (if (n <=? 3)%nat then n else 3%nat)) as idx.
  generalize [0; 0; 0] as d.
  intros d idx. revert d.
  induction idx as [|i rest IH]; intro d; cbn [split_loop]; [reflexivity|].
  rewrite (position_score_symmetric _ _ _ Hj). apply IH.
Qed.

Lemma version_consistency_symmetric_aux (version1 version2 : value) :
  (forall a b, jaro a b = jaro b a) ->
  version_consistency version1 version2
  = version_consistency version2 version1.
Proof.
  intro Hj. unfold version_consistency. cbv zeta.
  destruct version1 as [|a], version2 as [|b];
    unfold check_empty, is_lit; cbn [andb orb]; try reflexivity.
  - case_conditions; reflexivity.
  - case_conditions; reflexivity.
  - rewrite !semver_branch_none.
    rewrite (split_diffs_symmetric (normalize_version b) _ Hj).
    rewrite (String.eqb_sym (PyStr.lower b) (PyStr.lower a)).
    rewrite (String.eqb_sym (PyStr.lower (normalize_version b))).
    destruct (String.eqb a "NONE"), (String.eqb a "NOASSERTION"),
      (String.eqb b "NONE"), (String.eqb b "NOASSERTION"),
      (String.eqb a "NE"), (String.eqb b "NE"),
      (String.eqb a ""), (String.eqb b ""),
      (PyStr.contains "15.4.6" a), (PyStr.contains "15.4.6" b);
      cbn [andb orb]; reflexivity.
Qed.

(** X9.  When the text similarity is symmetric, so is
    [version_consistency]. *)
Theorem version_consistency_symmetric (version1 version2 : value) :
  (forall a b, jaro a b = jaro b a) ->
  version_consistency version1 version2
  = version_consistency version2 version1.
Proof.
  apply version_consistency_symmetric_aux.
Qed.

(** *** Ranges of the field scores *)

(** X10.  When the text similarity lies between 0 and 1, so does
    [version_consistency] on two versions that are [None] or strings of
    ASCII characters, at most 308 of them; and every integer that lines
    235-238 read from such a version is below [10 ^ 308], so that
    [math.fabs] and the division have their floats. *)
Theorem version_consistency_in_unit_interval (version1 version2 : value) :
  (forall a b, 0 <= jaro a b <= 1) ->
  plain_version version1 = true -> plain_version version2 = true ->
  0 <= version_consistency version1 version2 <= 1
  /\ forall (s : string) (i : nat),
       version1 = Str s \/ version2 = Str s ->
       let part := nth i (PyStr.split "." (normalize_version s)) "" in
       check_digit part = true ->
       (0 <= PyStr.int part < 10 ^ 308)%Z.
Proof.
  intros Hj P1 P2. split; [apply version_consistency_range; exact Hj|].
  intros s i Hs part Hd.
  assert (Hlen : (String.length s <= 308)%nat).
  { destruct Hs as [-> | ->]; cbn [plain_version] in P1, P2;
      [apply andb_true_iff in P1; destruct P1 as [_ P]
      |apply andb_true_iff in P2; destruct P2 as [_ P]];
      apply Nat.leb_le in P; exact P. }
  pose proof (normalize_version_length s) as Hn.
  apply (dotted_part_bound (normalize_version s) i 308); [lia | exact Hd].
Qed.

(** X11.  When the text similarity lies between 0 and 1, so does
    [purl_consistency], whatever the package URL parser returns. *)
Theorem purl_consistency_in_unit_interval (p1 p2 : value) :
  (forall a b, 0 <= jaro a b <= 1) ->
  0 <= purl_consistency p1 p2 <= 1.
Proof.
  intro Hj. apply purl_consistency_range. exact Hj.
Qed.

(** X12.  When the text similarity lies between 0 and 1, so does
    [text_consistency]; it is 0 when a side is [None] or a placeholder. *)
Theorem text_consistency_in_unit_interval (text1 text2 : value) :
  (forall a b, 0 <= jaro a b <= 1) ->
  0 <= text_consistency text1 text2 <= 1
  /\ (check_empty text1 = true \/ check_empty text2 = true
      \/ is_lit text1 "NE" = true \/ is_lit text2 "NE" = true ->
      text_consistency text1 text2 = 0).
Proof.
  intro Hj. split; [apply text_consistency_range; exact Hj|].
  intro H. unfold text_consistency.
  destruct (check_empty text1), (check_empty text2),
    (is_lit text1 "NE"), (is_lit text2 "NE"); cbn [andb orb];
    case_conditions; try reflexivity.
  destruct H as [H | [H | [H | H]]]; discriminate.
Qed.

(** X13.  When the tokens of the second license are pairwise distinct,
    [license_consistency] lies between 0 and 1. *)
Theorem license_consistency_in_unit_interval (license1 license2 : license) :
  NoDup (deal_license license2) ->
  0 <= license_consistency license1 license2 <= 1.
Proof.
  apply license_consistency_range.
Qed.

(** *** External references *)

(** X14.  [external_ref_proc] keeps the order of the references and puts
    each locator in one list at most: in the first when the reference type
    holds ["cpe"], otherwise in the second when it holds ["purl"]; strings
    among the references and references without a type add nothing. *)
Theorem external_ref_proc_partitions (refs : list external_ref) :
  external_ref_proc (ExtList refs)
  = (flat_map cpe_locator refs, flat_map purl_locator refs)
  /\ (List.length (fst (external_ref_proc (ExtList refs)))
      + List.length (snd (external_ref_proc (ExtList refs)))
      <= List.length refs)%nat.
Proof.
  assert (G : forall acc : list value * list value,
             fold_left
               (fun acc e =>
                  match e with
                  | RefStr _ => acc
                  | RefObj referenceType referenceLocator =>
                      let ref_type := match referenceType with
                                      | Some t => t
                                      | None => "NE"
                                      end in
                      if PyStr.contains "cpe" ref_type
                      then ((fst acc ++ [referenceLocator])%list, snd acc)
                      else if PyStr.contains "purl" ref_type
                      then (fst acc, (snd acc ++ [referenceLocator])%list)
                      else acc
                  end) refs acc
             = ((fst acc ++ flat_map cpe_locator refs)%list,
                (snd acc ++ flat_map purl_locator refs)%list)).
  { induction refs as [|e r IH]; intros [c p]; cbn [fold_left flat_map fst snd].
    - rewrite !app_nil_r. reflexivity.
    - rewrite IH. destruct e as [s | [t|] loc]; cbn [cpe_locator purl_locator].
      + reflexivity.
      + cbv zeta. destruct (PyStr.contains "cpe" t);
          [|destruct (PyStr.contains "purl" t)];
          cbn [fst snd app]; rewrite <- ?app_assoc; reflexivity.
      + cbv zeta. destruct (PyStr.contains "cpe" "NE");
          [|destruct (PyStr.contains "purl" "NE")];
          cbn [fst snd app]; rewrite <- ?app_assoc; reflexivity. }
  unfold external_ref_proc. rewrite G. cbn [fst snd app]. split; [reflexivity|].
  clear G. induction refs as [|e r IH]; cbn [flat_map List.length]; [lia|].
  rewrite !length_app.
  assert (H : (List.length (cpe_locator e) + List.length (purl_locator e)
               <= 1)%nat).
  { destruct e as [s | [t|] loc]; cbn [cpe_locator purl_locator];
      cbv zeta; case_conditions; cbn; lia. }
  lia.
Qed.

(** *** The key that [best_triple_match] returns *)

Lemma match_loop_key (st : standard) (pkg1 : entity st)
    (items : list (string * entity st)) :
  forall (bs : Q) (bk : option string) (v : nat),
  fst (match_loop st pkg1 items bs bk v) = (bs, bk)
  \/ exists k2 pkg2,
       In (k2, pkg2) items
       /\ name_score st pkg1 pkg2 == 1
       /\ fst (match_loop st pkg1 items bs bk v)
          = (triple_score st pkg1 pkg2, Some k2).
Proof.
  induction items as [|[k p] rest IH]; intros bs bk v; cbn [match_loop].
  - left. reflexivity.
  - destruct (Qeq_bool (name_score st pkg1 p) 1) eqn:N.
    + apply Qeq_bool_iff in N. cbv zeta.
      destruct (Qlt_bool bs (triple_score st pkg1 p)); cbn [fst snd].
      * destruct (Qeq_bool (triple_score st pkg1 p) 3).
        -- right. exists k, p. repeat split; [left; reflexivity | exact N].
        -- destruct (IH (triple_score st pkg1 p) (Some k) (S v))
             as [H | (k2 & p2 & Hin & N2 & H)].
           ++ right. exists k, p.
              repeat split; [left; reflexivity | exact N | exact H].
           ++ right. exists k2, p2.
              repeat split; [right; exact Hin | exact N2 | exact H].
      * destruct (Qeq_bool bs 3); [left; reflexivity|].
        destruct (IH bs bk (S v)) as [H | (k2 & p2 & Hin & N2 & H)].
        -- left. exact H.
        -- right. exists k2, p2.
           repeat split; [right; exact Hin | exact N2 | exact H].
    + destruct (IH bs bk (S v)) as [H | (k2 & p2 & Hin & N2 & H)].
      * left. exact H.
      * right. exists k2, p2.
        repeat split; [right; exact Hin | exact N2 | exact H].
Qed.

Lemma lookup_of_member {A : Type} (k : string) (a : A)
    (items : list (string * A)) :
  In (k, a) items -> exists a', lookup k items = Some a'.
Proof.
  induction items as [|[k' a'] r IH]; intros Hin; [destruct Hin|].
  cbn [lookup]. destruct (String.eqb k' k) eqn:E; [eexists; reflexivity|].
  destruct Hin as [Heq | Hin]; [|apply IH; exact Hin].
  inversion Heq; subst. rewrite String.eqb_refl in E. discriminate.
Qed.

(** X15.  A key that [best_triple_match] returns is the key of a candidate
    whose name score is 1; the score returned with it is the triple score of
    that candidate and reaches the threshold; and the look-up of the key
    that follows in the callers succeeds. *)
Theorem best_triple_match_key_is_a_candidate (st : standard)
    (pkg1 : entity st) (pkgs2 : list (string * entity st)) (threshold : Q)
    (best_k2 : string) (best_score : Q) :
  best_triple_match st pkg1 pkgs2 threshold = (Some best_k2, best_score) ->
  (exists pkg2,
      In (best_k2, pkg2) pkgs2
      /\ name_score st pkg1 pkg2 == 1
      /\ best_score = triple_score st pkg1 pkg2)
  /\ threshold <= best_score
  /\ exists pkg2, lookup best_k2 pkgs2 = Some pkg2.
Proof.
  unfold best_triple_match. intro H.
  destruct (match_loop_key st pkg1 pkgs2 (-1) None 0)
    as [Hr | (k2 & p2 & Hin & N2 & Hr)];
    destruct (match_loop st pkg1 pkgs2 (-1) None 0) as [[bs bk] n];
    cbn [fst] in Hr; inversion Hr; subst bs bk;
    destruct (Qle_bool threshold _) eqn:T; try discriminate.
  apply Qle_bool_iff in T. inversion H; subst best_k2 best_score.
  split; [exists p2; repeat split; assumption|].
  split; [exact T|]. eapply lookup_of_member. exact Hin.
Qed.

(** *** The shape of the results *)

Lemma sign_corrected_shape (result flags : list Q) :
  List.length (sign_corrected result flags) = List.length result
  /\ Forall (fun x => 0 <= x) (sign_corrected result flags).
Proof.
  unfold sign_corrected.
  destruct (existsb (fun x => Qlt_bool x 0) (result ++ flags)%list) eqn:E.
  - split; [apply length_map|]. apply Forall_forall. intros x Hx.
    apply in_map_iff in Hx. destruct Hx as [y [Hy _]]. subst x.
    apply Qabs_nonneg.
  - split; [reflexivity|]. apply Forall_forall. intros x Hx.
    destruct (Qlt_bool x 0) eqn:L; [|apply Qlt_bool_false_iff; exact L].
    assert (Hex : existsb (fun x => Qlt_bool x 0) (result ++ flags)%list
                  = true).
    { apply existsb_exists. exists x. split; [|exact L].
      apply in_or_app. left. exact Hx. }
    congruence.
Qed.

Lemma cdx_pair_shape (pkg1 pkg2 : Cdx.component) :
  score_vector 6 (Vec (cdx_pair pkg1 pkg2)).
Proof.
  unfold cdx_pair. cbv zeta.
  match goal with
  | |- score_vector _ (Vec (sign_corrected ?r ?f)) =>
      destruct (sign_corrected_shape r f) as [Hl Hp];
      exists (sign_corrected r f)
  end.
  repeat split; assumption.
Qed.

Lemma spdx_pair_shape (pkg1 pkg2 : Spdx.package) :
  score_vector 10 (Vec (spdx_pair pkg1 pkg2)).
Proof.
  unfold spdx_pair. cbv zeta.
  destruct (external_ref_proc (Spdx.externalRefs pkg1)) as [cpe1 purl1].
  destruct (external_ref_proc (Spdx.externalRefs pkg2)) as [cpe2 purl2].
  destruct (cross_sum longest_common_substring_consistency_score cpe1 cpe2)
    as [cpe_score neg_cpe].
  destruct (cross_sum purl_consistency purl1 purl2) as [purl_score neg_purl].
  match goal with
  | |- score_vector _ (Vec (sign_corrected ?r ?f)) =>
      destruct (sign_corrected_shape r f) as [Hl Hp];
      exists (sign_corrected r f)
  end.
  repeat split; assumption.
Qed.

Lemma cdx_loop_shape (items1 component2 : list (string * Cdx.component))
    (threshold : Q) :
  forall (pkg_info : list cell) (matched_pkg : list string),
  List.length pkg_info = List.length matched_pkg ->
  Forall (score_vector 6) pkg_info ->
  let r := cdx_loop items1 component2 threshold pkg_info matched_pkg in
  List.length (fst r) = List.length (snd r)
  /\ (List.length (snd r) <= List.length matched_pkg + List.length items1)%nat
  /\ Forall (score_vector 6) (fst r).
Proof.
  induction items1 as [|[k1 pkg1] rest IH]; intros pkg_info matched_pkg Hl HF;
    cbn [cdx_loop List.length].
  - cbn [fst snd]. repeat split; [exact Hl | lia | exact HF].
  - destruct (best_triple_match cdx pkg1 component2 threshold) as [[k2|] s].
    + destruct (lookup k2 component2) as [pkg2|].
      * specialize (IH (pkg_info ++ [Vec (cdx_pair pkg1 pkg2)])%list
                       (matched_pkg ++ [k1])%list).
        rewrite !length_app in IH. cbn [List.length] in IH.
        destruct IH as (H1 & H2 & H3); [lia | |].
        { apply Forall_app. split; [exact HF|].
          constructor; [apply cdx_pair_shape | constructor]. }
        repeat split; [exact H1 | lia | exact H3].
      * destruct (IH pkg_info matched_pkg Hl HF) as (H1 & H2 & H3).
        repeat split; [exact H1 | lia | exact H3].
    + destruct (IH pkg_info matched_pkg Hl HF) as (H1 & H2 & H3).
      repeat split; [exact H1 | lia | exact H3].
Qed.

Lemma spdx_loop_shape (items1 pkgs2 : list (string * Spdx.package))
    (threshold : Q) :
  forall (pkg_info : list cell) (matched_pkg : list string),
  List.length pkg_info = List.length matched_pkg ->
  Forall (score_vector 10) pkg_info ->
  let r := spdx_loop items1 pkgs2 threshold pkg_info matched_pkg in
  List.length (fst r) = List.length (snd r)
  /\ (List.length (snd r) <= List.length matched_pkg + List.length items1)%nat
  /\ Forall (score_vector 10) (fst r).
Proof.
  induction items1 as [|[k1 pkg1] rest IH]; intros pkg_info matched_pkg Hl HF;
    cbn [spdx_loop List.length].
  - cbn [fst snd]. repeat split; [exact Hl | lia | exact HF].
  - destruct (best_triple_match spdx pkg1 pkgs2 threshold) as [[k2|] s].
    + destruct (lookup k2 pkgs2) as [pkg2|].
      * specialize (IH (pkg_info ++ [Vec (spdx_pair pkg1 pkg2)])%list
                       (matched_pkg ++ [k1])%list).
        rewrite !length_app in IH. cbn [List.length] in IH.
        destruct IH as (H1 & H2 & H3); [lia | |].
        { apply Forall_app. split; [exact HF|].
          constructor; [apply spdx_pair_shape | constructor]. }
        repeat split; [exact H1 | lia | exact H3].
      * destruct (IH pkg_info matched_pkg Hl HF) as (H1 & H2 & H3).
        repeat split; [exact H1 | lia | exact H3].
    + destruct (IH pkg_info matched_pkg Hl HF) as (H1 & H2 & H3).
      repeat split; [exact H1 | lia | exact H3].
Qed.

Lemma sum_nonneg (l : list Q) : Forall (fun x => 0 <= x) l -> 0 <= sum l.
Proof.
  unfold sum. assert (G : forall acc, 0 <= acc ->
                            Forall (fun x => 0 <= x) l ->
                            0 <= fold_left Qplus l acc).
  { induction l as [|x r IH]; intros acc Ha HF; cbn [fold_left];
      [exact Ha|].
    inversion HF; subst. apply IH; [lra | assumption]. }
  intro HF. apply G; [lra | exact HF].
Qed.

Lemma as_vectors_of_score_vectors (n : nat) (rows : list cell) :
  Forall (score_vector n) rows ->
  exists vs, as_vectors rows = Ok vs
             /\ List.length vs = List.length rows
             /\ Forall (fun v => List.length v = n
                                 /\ Forall (fun x => 0 <= x) v) vs.
Proof.
  induction 1 as [|c r (v & Hc & Hl & Hp) HF (vs & Hvs & Hlen & Hall)].
  - exists []. repeat split. constructor.
  - subst c. exists (v :: vs). cbn [as_vectors]. rewrite Hvs. cbn [bind].
    repeat split; [cbn; lia|]. constructor; [split; assumption | exact Hall].
Qed.

Lemma fold_min_same (n : nat) (ls : list nat) :
  Forall (fun x => x = n) ls -> fold_left Nat.min ls n = n.
Proof.
  induction 1 as [|x r Hx HF IH]; cbn [fold_left]; [reflexivity|].
  subst x. rewrite Nat.min_id. exact IH.
Qed.

(** The means of the columns of score vectors of dimension [n]: [n]
    numbers, none negative. *)
Lemma column_means_of_score_vectors (n : nat) (rows : list cell) :
  rows <> [] -> Forall (score_vector n) rows ->
  exists means, column_means rows = Ok means
                /\ List.length means = n
                /\ Forall (fun x => 0 <= x) means.
Proof.
  intros Hne HF.
  destruct (as_vectors_of_score_vectors n rows HF) as (vs & Hvs & Hlen & Hall).
  unfold column_means. rewrite Hvs. cbn [bind]. eexists. split; [reflexivity|].
  destruct vs as [|v0 vs'].
  { destruct rows; [congruence | discriminate]. }
  assert (Hn : fold_left Nat.min (map (@List.length Q) vs') (List.length v0)
               = n).
  { inversion Hall as [|? ? H0 Hrest]; subst. destruct H0 as [Hl0 _].
    rewrite Hl0.
    apply fold_min_same. apply Forall_forall. intros x Hx.
    apply in_map_iff in Hx. destruct Hx as [v [Hv Hin]]. subst x.
    rewrite Forall_forall in Hrest. apply Hrest. exact Hin. }
  unfold zip_star. rewrite Hn. split.
  - rewrite !length_map, length_seq. reflexivity.
  - apply Forall_forall. intros x Hx.
    apply in_map_iff in Hx. destruct Hx as [col [Hx Hcol]]. subst x.
    apply in_map_iff in Hcol. destruct Hcol as [j [Hcol _]]. subst col.
    rewrite length_map.
    apply Qle_shift_div_l.
    + change 0 with (inject_Z 0). rewrite <- Zlt_Qlt. cbn [List.length]. lia.
    + rewrite Qmult_0_l. apply sum_nonneg. apply Forall_forall.
      intros x Hx. apply in_map_iff in Hx. destruct Hx as [row [Hx Hrow]].
      subst x. rewrite Forall_forall in Hall.
      destruct (Hall row Hrow) as [_ Hp]. rewrite Forall_forall in Hp.
      destruct (nth_in_or_default j row 0) as [Hin | Hd];
        [apply Hp; exact Hin | rewrite Hd; lra].
Qed.

(** X16.  The result of a cdx comparison always has two repository scores
    and three counts with the matched count at most the first size;
    [pkg_info] is never empty and holds vectors of six scores, none
    negative; and the row of the evaluator is computed, with 11 numbers. *)
Theorem cdx_result_shape (tool1 tool2 reponame1 : string)
    (filedata1 filedata2 : cdx_data) (threshold : Q) :
  let r := cdx_consistency_data tool1 tool2 reponame1 filedata1 filedata2
                                threshold in
  List.length (repo_info r) = 2%nat
  /\ (exists n1 n2 m, statistic_info r = [n1; n2; m] /\ (0 <= m <= n1)%Z)
  /\ pkg_info r <> []
  /\ Forall (score_vector 6) (pkg_info r)
  /\ exists row, result_row "cdx" r = Ok row /\ List.length row = 11%nat.
Proof.
  intro r.
  assert (Hrepo : List.length (repo_info r) = 2%nat).
  { subst r. unfold cdx_consistency_data, cdx_repo_info.
    destruct (components filedata1), (components filedata2);
      try destruct (cdx_loop _ _ _ _ _);
      destruct (metadata filedata1), (metadata filedata2); reflexivity. }
  assert (Hzero : score_vector 6 (Vec [0; 0; 0; 0; 0; 0])).
  { exists [0; 0; 0; 0; 0; 0]. repeat split. repeat constructor; lra. }
  assert (Hstat : (exists n1 n2 m, statistic_info r = [n1; n2; m]
                                   /\ (0 <= m <= n1)%Z)
                  /\ pkg_info r <> []
                  /\ Forall (score_vector 6) (pkg_info r)).
  { subst r. unfold cdx_consistency_data.
    destruct (components filedata1) as [|c1], (components filedata2) as [|c2];
      try (cbn [statistic_info pkg_info]; split;
           [exists 0%Z, 0%Z, 0%Z; split; [reflexivity | lia]|];
           split; [discriminate | constructor; [exact Hzero | constructor]]).
    pose proof (cdx_loop_shape c1 c2 threshold [] [] eq_refl (Forall_nil _))
      as (H1 & H2 & H3).
    destruct (cdx_loop c1 c2 threshold [] []) as [rows matched].
    cbn [fst snd List.length] in H1, H2, H3.
    cbn [statistic_info pkg_info]. split.
    - eexists _, _, _. split; [reflexivity | lia].
    - destruct rows as [|c l]; cbn [List.length Nat.eqb].
      + split; [discriminate | constructor; [exact Hzero | constructor]].
      + split; [discriminate | exact H3]. }
  destruct Hstat as ((n1 & n2 & m & Hs & Hm) & Hne & HF).
  split; [exact Hrepo|]. split; [exists n1, n2, m; split; assumption|].
  split; [exact Hne|]. split; [exact HF|].
  destruct (column_means_of_score_vectors 6 (pkg_info r) Hne HF)
    as (means & Hmeans & Hlen & _).
  unfold result_row. cbn [String.eqb Ascii.eqb Bool.eqb]. rewrite Hmeans.
  cbn [bind]. eexists. split; [reflexivity|].
  rewrite !length_app, length_map, Hrepo, Hs, Hlen. reflexivity.
Qed.

(** X17.  When the packages of both spdx documents are present, the result
    has six counts (three zeros for the files, the two sizes and a matched
    count at most the first size), [pkg_info] is never empty and holds
    vectors of ten scores, none negative, and the row of the evaluator is
    computed, with 28 numbers. *)
Theorem spdx_result_shape (tool1 tool2 reponame1 : string)
    (filedata1 filedata2 : spdx_data) (threshold : Q) :
  is_NE (packages filedata1) = false ->
  is_NE (packages filedata2) = false ->
  let r := spdx_consistency_data tool1 tool2 reponame1 filedata1 filedata2
                                 threshold in
  (exists m, statistic_info r
             = [0; 0; 0; Z.of_nat (size (packages filedata1));
                Z.of_nat (size (packages filedata2)); m]%Z
             /\ (0 <= m <= Z.of_nat (size (packages filedata1)))%Z)
  /\ pkg_info r <> []
  /\ Forall (score_vector 10) (pkg_info r)
  /\ List.length (repo_info r) = 11%nat
  /\ exists row, result_row "spdx" r = Ok row /\ List.length row = 28%nat.
Proof.
  intros N1 N2 r.
  assert (Hzero : score_vector 10 (Vec (repeat 0 10))).
  { exists (repeat 0 10). repeat split. repeat constructor; lra. }
  assert (H : (exists m, statistic_info r
                         = [0; 0; 0; Z.of_nat (size (packages filedata1));
                            Z.of_nat (size (packages filedata2)); m]%Z
                         /\ (0 <= m <= Z.of_nat (size (packages filedata1)))%Z)
              /\ pkg_info r <> []
              /\ Forall (score_vector 10) (pkg_info r)
              /\ List.length (repo_info r) = 11%nat
              /\ files_info r = Some [Vec [0]]).
  { subst r. unfold spdx_consistency_data. cbv zeta. rewrite N1, N2.
    cbn [orb negb].
    replace (if is_NE (files filedata1) || is_NE (files filedata2)
             then false else false) with false
      by (destruct (is_NE (files filedata1) || is_NE (files filedata2));
          reflexivity).
    cbn [negb app].
    pose proof (spdx_loop_shape (items_of (packages filedata1))
                  (items_of (packages filedata2)) threshold [] [] eq_refl
                  (Forall_nil _)) as (H1 & H2 & H3).
    destruct (spdx_loop (items_of (packages filedata1))
                (items_of (packages filedata2)) threshold [] [])
      as [rows matched].
    cbn [fst snd List.length] in H1, H2, H3.
    cbn [statistic_info pkg_info repo_info files_info app].
    assert (Hsize : List.length (items_of (packages filedata1))
                    = size (packages filedata1)).
    { destruct (packages filedata1); reflexivity. }
    split; [eexists; split; [reflexivity | lia]|].
    destruct rows as [|c l]; cbn [List.length Nat.eqb app].
    - repeat split; try discriminate.
      constructor; [exact Hzero | constructor].
    - repeat split; try discriminate. exact H3. }
  destruct H as ((m & Hs & Hm) & Hne & HF & Hrepo & Hfiles).
  split; [exists m; split; assumption|].
  split; [exact Hne|]. split; [exact HF|]. split; [exact Hrepo|].
  destruct (column_means_of_score_vectors 10 (pkg_info r) Hne HF)
    as (means & Hmeans & Hlen & _).
  unfold result_row. cbn [String.eqb Ascii.eqb Bool.eqb].
  rewrite Hmeans, Hfiles. cbn [bind]. eexists. split; [reflexivity|].
  rewrite !length_app, !length_map, Hrepo, Hs, Hlen. reflexivity.
Qed.

Lemma spdx_row_raises_without_packages_aux (tool1 tool2 reponame1 : string)
    (filedata1 filedata2 : spdx_data) (threshold : Q) :
  is_NE (packages filedata1) = true \/ is_NE (packages filedata2) = true ->
  result_row "spdx"
    (spdx_consistency_data tool1 tool2 reponame1 filedata1 filedata2
                           threshold)
  = Raise TypeError.
Proof.
  intro H.
  assert (E : is_NE (packages filedata1) || is_NE (packages filedata2)
              = true).
  { destruct H as [H | H]; rewrite H; [reflexivity | apply orb_true_r]. }
  unfold spdx_consistency_data. cbv zeta. rewrite E.
  destruct (is_NE (files filedata1) || is_NE (files filedata2)); reflexivity.
Qed.

(** X18.  When the packages of either spdx document are the marker, the
    computation of the row raises [TypeError], whatever else the documents
    hold. *)
Theorem spdx_row_raises_without_packages (tool1 tool2 reponame1 : string)
    (filedata1 filedata2 : spdx_data) (threshold : Q) :
  is_NE (packages filedata1) = true \/ is_NE (packages filedata2) = true ->
  result_row "spdx"
    (spdx_consistency_data tool1 tool2 reponame1 filedata1 filedata2
                           threshold)
  = Raise TypeError.
Proof.
  intros. eapply spdx_row_raises_without_packages_aux; eassumption.
Qed.

(** *** Pairs that are compared *)

(** X19.  A pair of two different paths that both hold a JSON document is
    not skipped: [compare_files] does not return [None] and leaves
    [fileinvalid] as it was. *)
Theorem compare_files_keeps_valid_pair (fs : filesystem) (fileinvalid : Z)
    (file1_path file2_path standard : string) (threshold : Q) :
  file1_path <> file2_path ->
  is_valid_json fs file1_path = Ok true ->
  is_valid_json fs file2_path = Ok true ->
  fst (compare_files fs fileinvalid file1_path file2_path standard threshold)
  <> Ok None
  /\ snd (compare_files fs fileinvalid file1_path file2_path standard
                        threshold) = fileinvalid.
Proof.
  intros Hne V1 V2. unfold compare_files. rewrite V1, V2.
  apply String.eqb_neq in Hne. rewrite Hne. cbn [negb fst snd].
  destruct (String.eqb standard "spdx").
  - cbn [fst snd]. split; [|reflexivity].
    destruct (spdx_consistency fs file1_path file2_path threshold);
      discriminate.
  - destruct (String.eqb standard "cdx"); cbn [fst snd];
      (split; [|reflexivity]); [|discriminate].
    destruct (cdx_consistency fs file1_path file2_path threshold);
      discriminate.
Qed.

(** *** File names *)

Lemma append_empty_r (s : string) : s ++ "" = s.
Proof.
  induction s as [|c r IH]; cbn; [reflexivity | rewrite IH; reflexivity].
Qed.

Lemma append_assoc (s t u : string) : (s ++ t) ++ u = s ++ t ++ u.
Proof.
  induction s as [|c r IH]; cbn; [reflexivity | rewrite IH; reflexivity].
Qed.

Lemma length_append (s t : string) :
  String.length (s ++ t) = (String.length s + String.length t)%nat.
Proof.
  induction s as [|c r IH]; cbn; [reflexivity | rewrite IH; reflexivity].
Qed.

Lemma append_cancel_l (s t u : string) : s ++ t = s ++ u -> t = u.
Proof.
  induction s as [|c r IH]; cbn; intro H; [exact H|].
  inversion H. apply IH. assumption.
Qed.

Lemma append_cancel_r (t u s : string) : t ++ s = u ++ s -> t = u.
Proof.
  revert u. induction t as [|c r IH]; intros [|d u'] H; cbn in H.
  - reflexivity.
  - apply (f_equal String.length) in H. cbn in H.
    rewrite length_append in H. lia.
  - apply (f_equal String.length) in H. cbn in H.
    rewrite length_append in H. lia.
  - inversion H. f_equal. apply IH. assumption.
Qed.

Lemma split_aux_without_sep (sep : ascii) (t cur : string) :
  PyStr.has_char sep t = false -> PyStr.split_aux sep t cur = [cur ++ t].
Proof.
  revert cur. induction t as [|c r IH]; intros cur H; cbn [PyStr.split_aux].
  - rewrite append_empty_r. reflexivity.
  - cbn [PyStr.has_char] in H. apply orb_false_iff in H. destruct H as [Hc Hr].
    rewrite Hc, IH by exact Hr. rewrite append_assoc. reflexivity.
Qed.

Lemma split_aux_first_field (sep : ascii) (s rest cur : string) :
  PyStr.has_char sep s = false ->
  PyStr.split_aux sep (s ++ String sep rest) cur
  = (cur ++ s) :: PyStr.split_aux sep rest "".
Proof.
  revert cur. induction s as [|c r IH]; intros cur H; cbn [append PyStr.split_aux].
  - rewrite Ascii.eqb_refl, append_empty_r. reflexivity.
  - cbn [PyStr.has_char] in H. apply orb_false_iff in H. destruct H as [Hc Hr].
    rewrite Hc, IH by exact Hr. rewrite append_assoc. reflexivity.
Qed.

Lemma split_aux_last_field (sep : ascii) (x t cur : string) :
  PyStr.has_char sep t = false ->
  PyStr.split_aux sep (x ++ String sep t) cur
  = (PyStr.split_aux sep x cur ++ [t])%list.
Proof.
  revert cur. induction x as [|c r IH]; intros cur H;
    cbn [append PyStr.split_aux].
  - rewrite Ascii.eqb_refl, split_aux_without_sep by exact H. reflexivity.
  - destruct (Ascii.eqb c sep); rewrite IH by exact H; reflexivity.
Qed.

Lemma split_aux_not_empty (sep : ascii) (s cur : string) :
  PyStr.split_aux sep s cur <> [].
Proof.
  revert cur. induction s as [|c r IH]; intro cur; cbn [PyStr.split_aux];
    [discriminate|].
  destruct (Ascii.eqb c sep); [discriminate | apply IH].
Qed.

(** Joining the fields of a split with the separator gives the string
    back. *)
Lemma concat_split_aux (sep : ascii) (s cur : string) :
  String.concat (String sep "") (PyStr.split_aux sep s cur) = cur ++ s.
Proof.
  revert cur. induction s as [|c r IH]; intro cur; cbn [PyStr.split_aux].
  - cbn. rewrite append_empty_r. reflexivity.
  - destruct (Ascii.eqb c sep) eqn:E.
    + apply Ascii.eqb_eq in E. subst c.
      pose proof (IH "") as H. pose proof (split_aux_not_empty sep r "") as N.
      destruct (PyStr.split_aux sep r "") as [|y l]; [congruence|].
      cbn [String.concat]. cbn [String.concat] in H. rewrite H.
      reflexivity.
    + rewrite IH, append_assoc. reflexivity.
Qed.

Lemma basename_of_path (dir name : string) :
  PyStr.has_char "/" name = false ->
  basename (dir ++ "/" ++ name) = name.
Proof.
  intro H. unfold basename, PyStr.split.
  change (dir ++ "/" ++ name) with (dir ++ String "/" name).
  rewrite split_aux_last_field by exact H.
  apply last_last.
Qed.

Lemma before_last_dot_json (x : string) :
  before_last_dot (x ++ ".json") = x.
Proof.
  unfold before_last_dot, PyStr.split.
  change (x ++ ".json") with (x ++ String "." "json").
  rewrite split_aux_last_field by reflexivity.
  rewrite rev_app_distr. cbn [rev app].
  pose proof (split_aux_not_empty "." x "") as N.
  pose proof (concat_split_aux "." x "") as C.
  destruct (rev (PyStr.split_aux "." x "")) as [|y l] eqn:E.
  - apply (f_equal (@rev string)) in E. rewrite rev_involutive in E.
    cbn in E. congruence.
  - rewrite <- E, rev_involutive. exact C.
Qed.

Lemma parse_fileinfo_of_sbom_path_aux (fs : filesystem)
    (filepath standard tool line : string) (data : filedata) :
  PyStr.has_char "#" standard = false -> PyStr.has_char "/" standard = false ->
  PyStr.has_char "#" tool = false -> PyStr.has_char "/" tool = false ->
  PyStr.has_char "#" line = false -> PyStr.has_char "/" line = false ->
  fs (sbom_path filepath standard tool line) = Json data ->
  parse_fileinfo fs (sbom_path filepath standard tool line)
  = Ok (standard ++ "#" ++ tool ++ "#" ++ line, tool, line, data).
Proof.
  intros S1 S2 T1 T2 L1 L2 Hfs. unfold parse_fileinfo. rewrite Hfs.
  unfold sbom_path.
  rewrite basename_of_path.
  2:{ rewrite !has_char_app. cbn [PyStr.has_char]. rewrite S2, T2, L2. reflexivity. }
  replace (standard ++ "#" ++ tool ++ "#" ++ line ++ ".json")
    with ((standard ++ "#" ++ tool ++ "#" ++ line) ++ ".json")
    by (rewrite !append_assoc; reflexivity).
  rewrite before_last_dot_json.
  unfold PyStr.split.
  change (standard ++ "#" ++ tool ++ "#" ++ line)
    with (standard ++ String "#" (tool ++ String "#" line)).
  rewrite split_aux_first_field by exact S1.
  rewrite split_aux_first_field by exact T1.
  rewrite split_aux_without_sep by exact L1.
  reflexivity.
Qed.

(** X20.  [parse_fileinfo] reads back what line 667 puts in the path: for a
    standard, a tool and a repository name without ['#'] and ['/'], the path
    that the evaluator builds parses into that tool and that name, in any
    directory, and the JSON document of the path is returned. *)
Theorem parse_fileinfo_of_sbom_path (fs : filesystem)
    (filepath standard tool line : string) (data : filedata) :
  PyStr.has_char "#" standard = false -> PyStr.has_char "/" standard = false ->
  PyStr.has_char "#" tool = false -> PyStr.has_char "/" tool = false ->
  PyStr.has_char "#" line = false -> PyStr.has_char "/" line = false ->
  fs (sbom_path filepath standard tool line) = Json data ->
  parse_fileinfo fs (sbom_path filepath standard tool line)
  = Ok (standard ++ "#" ++ tool ++ "#" ++ line, tool, line, data).
Proof.
  intros. eapply parse_fileinfo_of_sbom_path_aux; eassumption.
Qed.

(** *** The pairs of the evaluator *)

Lemma tool_pairs_indices (tools : list string) (t1 t2 : string) :
  In (t1, t2) (tool_pairs tools) ->
  exists i j, (i < j < List.length tools)%nat
              /\ t1 = nth i tools "" /\ t2 = nth j tools "".
Proof.
  unfold tool_pairs. intro H.
  apply in_flat_map in H. destruct H as [i [Hi H]].
  apply in_map_iff in H. destruct H as [j [Heq Hj]].
  apply in_seq in Hi. apply in_seq in Hj. inversion Heq; subst.
  exists i, j. repeat split; lia.
Qed.

Lemma sbom_path_injective (filepath standard tool1 tool2 line : string) :
  sbom_path filepath standard tool1 line
  = sbom_path filepath standard tool2 line ->
  tool1 = tool2.
Proof.
  unfold sbom_path. intro H.
  apply append_cancel_l in H. cbn [append] in H. inversion H as [H1].
  apply append_cancel_l in H1. cbn [append] in H1. inversion H1 as [H2].
  apply append_cancel_r in H2. exact H2.
Qed.

Lemma evaluator_pairs_have_distinct_paths_aux (tools : list string)
    (filepath standard line tool1 tool2 : string) :
  NoDup tools ->
  In (tool1, tool2) (tool_pairs tools) ->
  tool1 <> tool2
  /\ sbom_path filepath standard tool1 line
     <> sbom_path filepath standard tool2 line
  /\ exists i j, (i < j < List.length tools)%nat
                 /\ nth i tools "" = tool1 /\ nth j tools "" = tool2.
Proof.
  intros Hnd Hin.
  destruct (tool_pairs_indices tools tool1 tool2 Hin) as (i & j & Hij & H1 & H2).
  assert (Hne : tool1 <> tool2).
  { intro E. subst tool1 tool2.
    apply (proj1 (NoDup_nth tools "") Hnd) in E; lia. }
  split; [exact Hne|]. split.
  - intro E. apply Hne. eapply sbom_path_injective. exact E.
  - exists i, j. repeat split; try lia; symmetry; assumption.
Qed.

(** X21.  The evaluator never hands [compare_files] the same path twice:
    for tools that are pairwise distinct, the two tools of every pair
    differ, the first comes before the second in the list, and the two
    paths built for a repository differ. *)
Theorem evaluator_pairs_have_distinct_paths (tools : list string)
    (filepath standard line tool1 tool2 : string) :
  NoDup tools ->
  In (tool1, tool2) (tool_pairs tools) ->
  tool1 <> tool2
  /\ sbom_path filepath standard tool1 line
     <> sbom_path filepath standard tool2 line
  /\ exists i j, (i < j < List.length tools)%nat
                 /\ nth i tools "" = tool1 /\ nth j tools "" = tool2.
Proof.
  intros. eapply evaluator_pairs_have_distinct_paths_aux; eassumption.
Qed.

Lemma compare_files_on_evaluator_paths_aux (fs : filesystem) (fileinvalid : Z)
    (filepath tool1 tool2 line : string) (d1 d2 : spdx_data) (threshold : Q) :
  tool1 <> tool2 ->
  PyStr.has_char "#" tool1 = false -> PyStr.has_char "/" tool1 = false ->
  PyStr.has_char "#" tool2 = false -> PyStr.has_char "/" tool2 = false ->
  PyStr.has_char "#" line = false -> PyStr.has_char "/" line = false ->
  fs (sbom_path filepath "spdx" tool1 line) = Json (SpdxData d1) ->
  fs (sbom_path filepath "spdx" tool2 line) = Json (SpdxData d2) ->
  compare_files fs fileinvalid (sbom_path filepath "spdx" tool1 line)
                (sbom_path filepath "spdx" tool2 line) "spdx" threshold
  = (Ok (Some (spdx_consistency_data tool1 tool2 line d1 d2 threshold)),
     fileinvalid).
Proof.
  intros Hne A1 A2 B1 B2 L1 L2 F1 F2.
  unfold compare_files, is_valid_json. rewrite F1, F2.
  assert (P : String.eqb (sbom_path filepath "spdx" tool1 line)
                         (sbom_path filepath "spdx" tool2 line) = false).
  { apply String.eqb_neq. intro E. apply Hne.
    eapply sbom_path_injective. exact E. }
  rewrite P. cbn [negb String.eqb Ascii.eqb Bool.eqb].
  unfold spdx_consistency.
  rewrite (parse_fileinfo_of_sbom_path_aux fs filepath "spdx" tool1 line
             (SpdxData d1)) by (assumption || reflexivity).
  rewrite (parse_fileinfo_of_sbom_path_aux fs filepath "spdx" tool2 line
             (SpdxData d2)) by (assumption || reflexivity).
  reflexivity.
Qed.






(** X24.  An spdx run ends with [TypeError] at the first pair of the first
    line when the documents of the first two tools exist and one of them has
    no packages: no row is appended, for that repository or any later
    one. *)
Theorem run_stops_at_pair_without_packages (fs : filesystem)
    (result_path filepath line : string) (rest : list string)
    (d1 d2 : spdx_data) (threshold : Q) (fileinvalid : Z) :
  line <> "" ->
  PyStr.has_char "#" (PyStr.strip line) = false ->
  PyStr.has_char "/" (PyStr.strip line) = false ->
  fs (sbom_path filepath "spdx" "syft" (PyStr.strip line))
  = Json (SpdxData d1) ->
  fs (sbom_path filepath "spdx" "gh-sbom" (PyStr.strip line))
  = Json (SpdxData d2) ->
  is_NE (packages d1) = true \/ is_NE (packages d2) = true ->
  run_consistency_evaluator fs "spdx" result_path filepath (line :: rest)
                            threshold fileinvalid
  = (Raise TypeError, fileinvalid).
Proof.
  intros Hline L1 L2 F1 F2 Hpk. unfold run_consistency_evaluator.
  cbn [String.eqb Ascii.eqb Bool.eqb run_lines].
  apply String.eqb_neq in Hline. rewrite Hline.
  change (tool_pairs tools_spdx)
    with (("syft", "gh-sbom") :: tl (tool_pairs tools_spdx)).
  cbn [run_pairs]. cbv zeta.
  rewrite (compare_files_on_evaluator_paths_aux fs fileinvalid filepath
             "syft" "gh-sbom" (PyStr.strip line) d1 d2 threshold)
    by (assumption || reflexivity || discriminate).
  rewrite spdx_row_raises_without_packages_aux by exact Hpk.
  reflexivity.
Qed.

(** *** The table of the longest common substring *)

Lemma rev_onto_acc (x acc : string) : rev_onto x acc = rev_onto x "" ++ acc.
Proof.
  revert acc. induction x as [|c r IH]; intro acc; cbn [rev_onto];
    [reflexivity|].
  rewrite (IH (String c acc)), (IH (String c "")), append_assoc. reflexivity.
Qed.

Lemma rev_onto_append (x y acc : string) :
  rev_onto (x ++ y) acc = rev_onto y (rev_onto x acc).
Proof.
  revert acc. induction x as [|c r IH]; intro acc; cbn [append rev_onto];
    [reflexivity | apply IH].
Qed.

Lemma rev_onto_twice (x acc z : string) :
  rev_onto (rev_onto x acc) z = rev_onto acc (x ++ z).
Proof.
  revert acc. induction x as [|c r IH]; intro acc; cbn [append rev_onto];
    [reflexivity|].
  rewrite IH. reflexivity.
Qed.

Lemma length_rev_onto (x acc : string) :
  String.length (rev_onto x acc)
  = (String.length x + String.length acc)%nat.
Proof.
  revert acc. induction x as [|c r IH]; intro acc; cbn [rev_onto];
    [reflexivity|].
  rewrite IH. cbn [String.length]. lia.
Qed.

Lemma common_prefix_split (x y : string) :
  exists u x' y', x = u ++ x' /\ y = u ++ y'
                  /\ String.length u = common_prefix_len x y.
Proof.
  revert y. induction x as [|c x IH]; intro y.
  - exists "", "", y. repeat split.
  - destruct y as [|d y].
    + exists "", (String c x), "". repeat split.
    + cbn [common_prefix_len]. destruct (Ascii.eqb c d) eqn:E.
      * apply Ascii.eqb_eq in E. subst d.
        destruct (IH y) as (u & x' & y' & Hx & Hy & Hl).
        exists (String c u), x', y'. cbn [append String.length].
        rewrite <- Hx, <- Hy, Hl. repeat split.
      * exists "", (String c x), (String d y). repeat split.
Qed.

Lemma common_prefix_at_least (u x' y' : string) :
  (String.length u <= common_prefix_len (u ++ x') (u ++ y'))%nat.
Proof.
  induction u as [|c u IH]; cbn [append String.length common_prefix_len];
    [lia|].
  rewrite Ascii.eqb_refl. lia.
Qed.

Lemma lcs_row_cells (c : ascii) (r1 : string) :
  forall rest2 acc2 : string,
  lcs_row c rest2 (row_cells r1 acc2 rest2)
  = match rest2 with
    | EmptyString => []
    | String d rest => row_cells (String c r1) (String d acc2) rest
    end.
Proof.
  induction rest2 as [|d rest IH]; intro acc2; cbn [row_cells lcs_row];
    [reflexivity|].
  rewrite IH. cbn [common_prefix_len]. destruct rest; reflexivity.
Qed.

Lemma first_row_cells (str2 acc2 : string) :
  repeat O (S (String.length str2)) = row_cells "" acc2 str2.
Proof.
  revert acc2. induction str2 as [|d rest IH]; intro acc2;
    cbn [String.length repeat row_cells common_prefix_len]; [reflexivity|].
  f_equal. apply IH.
Qed.

Lemma next_row_cells (c : ascii) (r1 str2 : string) :
  O :: lcs_row c str2 (row_cells r1 "" str2) = row_cells (String c r1) "" str2.
Proof.
  rewrite lcs_row_cells. destruct str2; reflexivity.
Qed.

Lemma row_cells_member (r1 : string) :
  forall p q acc : string,
  In (common_prefix_len r1 (rev_onto p acc)) (row_cells r1 acc (p ++ q)).
Proof.
  induction p as [|c p IH]; intros q acc; cbn [append rev_onto].
  - destruct q; left; reflexivity.
  - cbn [row_cells]. right. apply IH.
Qed.

Lemma row_cells_origin (r1 : string) :
  forall rest acc : string, forall e : nat,
  In e (row_cells r1 acc rest) ->
  exists p q, rest = p ++ q /\ e = common_prefix_len r1 (rev_onto p acc).
Proof.
  induction rest as [|d rest IH]; intros acc e Hin; cbn [row_cells] in Hin.
  - destruct Hin as [H | []]. exists "", "". split; [reflexivity|].
    symmetry. exact H.
  - destruct Hin as [H | H].
    + exists "", (String d rest). split; [reflexivity|]. symmetry. exact H.
    + destruct (IH _ _ H) as (p & q & Hr & He).
      exists (String d p), q. cbn [append rev_onto]. rewrite Hr.
      split; [reflexivity | exact He].
Qed.

Lemma fold_max_lower (row : list nat) :
  forall m : nat,
  (m <= fold_left Nat.max row m)%nat
  /\ (forall e, In e row -> (e <= fold_left Nat.max row m)%nat)
  /\ (fold_left Nat.max row m = m \/ In (fold_left Nat.max row m) row).
Proof.
  induction row as [|x r IH]; intro m; cbn [fold_left].
  - repeat split; [lia | intros e [] | left; reflexivity].
  - destruct (IH (Nat.max m x)) as (H1 & H2 & H3). repeat split.
    + lia.
    + intros e [He | He]; [subst e; lia | apply H2; exact He].
    + destruct H3 as [H3 | H3]; [|right; right; exact H3].
      rewrite H3. destruct (Nat.max_spec m x) as [[_ E] | [_ E]]; rewrite E;
        [right; left; reflexivity | left; reflexivity].
Qed.

(** The table, started on the row of the part [r1] with the maximum
    [longest_len] so far: the result bounds the start and every cell of the
    rows to come, and it is the start or one of those cells. *)
Lemma lcs_table_cells (str2 : string) :
  forall (s1 r1 : string) (longest_len : nat),
  let res := lcs_table s1 str2 (row_cells r1 "" str2) longest_len in
  (longest_len <= res)%nat
  /\ (forall p q e, s1 = p ++ q -> p <> "" ->
        In e (row_cells (rev_onto p r1) "" str2) -> (e <= res)%nat)
  /\ (res = longest_len
      \/ exists p q, s1 = p ++ q
                     /\ In res (row_cells (rev_onto p r1) "" str2)).
Proof.
  induction s1 as [|c s1 IH]; intros r1 longest_len; cbn [lcs_table].
  - repeat split; [lia | | left; reflexivity].
    intros p q e Hs Hp. destruct p; [congruence | discriminate].
  - cbv zeta.
    set (row := lcs_row c str2 (row_cells r1 "" str2)).
    assert (Hrow : O :: row = row_cells (String c r1) "" str2)
      by apply next_row_cells.
    rewrite Hrow.
    destruct (fold_max_lower row longest_len) as (F1 & F2 & F3).
    destruct (IH (String c r1) (fold_left Nat.max row longest_len))
      as (H1 & H2 & H3).
    repeat split.
    + lia.
    + intros p q e Hs Hp Hin. destruct p as [|c' p]; [congruence|].
      cbn [append] in Hs. inversion Hs; subst c' s1. cbn [rev_onto] in Hin.
      destruct p as [|c'' p'].
      * cbn [rev_onto] in Hin. rewrite <- Hrow in Hin.
        destruct Hin as [He | He]; [subst e; lia|].
        specialize (F2 e He). lia.
      * apply (H2 (String c'' p') q e eq_refl); [discriminate | exact Hin].
    + destruct H3 as [H3 | (p & q & Hs & Hin)].
      * rewrite H3. destruct F3 as [F3 | F3]; [left; exact F3|].
        right. exists (String c ""), s1. split; [reflexivity|].
        cbn [rev_onto]. rewrite <- Hrow. right. exact F3.
      * right. exists (String c p), q. cbn [append rev_onto].
        split; [rewrite Hs; reflexivity | exact Hin].
Qed.

Lemma reversed_part_occurs (p u x' q : string) :
  rev_onto p "" = u ++ x' ->
  occurs_in (rev_onto u "") (p ++ q)
  /\ String.length (rev_onto u "") = String.length u.
Proof.
  intro H. split.
  - assert (Hp : p = rev_onto x' "" ++ rev_onto u "").
    { pose proof (rev_onto_twice p "" "") as T. cbn [rev_onto] in T.
      rewrite append_empty_r in T. rewrite <- T, H.
      rewrite rev_onto_append. apply rev_onto_acc. }
    exists (rev_onto x' ""), q. rewrite Hp at 1. apply append_assoc.
  - rewrite length_rev_onto. cbn [String.length]. lia.
Qed.

Lemma table_finds_longest_common_substring_aux (str1 str2 : string) :
  (exists t, occurs_in t str1 /\ occurs_in t str2
             /\ String.length t = table_longest_len str1 str2)
  /\ (forall t, occurs_in t str1 -> occurs_in t str2 ->
                (String.length t <= table_longest_len str1 str2)%nat).
Proof.
  unfold table_longest_len. rewrite (first_row_cells str2 "").
  destruct (lcs_table_cells str2 str1 "" O) as (_ & Hup & Hatt).
  cbv zeta in Hup, Hatt. split.
  - destruct Hatt as [H0 | (p & q & Hs & Hin)].
    + exists "". rewrite H0.
      repeat split; [exists "", str1 | exists "", str2]; reflexivity.
    + destruct (row_cells_origin _ _ _ _ Hin) as (p2 & q2 & Hs2 & He).
      destruct (common_prefix_split (rev_onto p "") (rev_onto p2 ""))
        as (u & x' & y' & Hx & Hy & Hl).
      destruct (reversed_part_occurs p u x' q Hx) as [O1 L1].
      destruct (reversed_part_occurs p2 u y' q2 Hy) as [O2 _].
      exists (rev_onto u "").
      split; [rewrite Hs; exact O1|]. split; [rewrite Hs2; exact O2|].
      rewrite L1, Hl. symmetry. exact He.
  - intros t (pre1 & post1 & H1) (pre2 & post2 & H2).
    destruct t as [|c t]; [cbn; lia|].
    set (t' := String c t) in *.
    assert (Hin : In (common_prefix_len (rev_onto (pre1 ++ t') "")
                                        (rev_onto (pre2 ++ t') ""))
                     (row_cells (rev_onto (pre1 ++ t') "") "" str2)).
    { rewrite H2. rewrite <- append_assoc. apply row_cells_member. }
    assert (Hle : (common_prefix_len (rev_onto (pre1 ++ t') "")
                                     (rev_onto (pre2 ++ t') "")
                   <= lcs_table str1 str2 (row_cells "" "" str2) O)%nat).
    { apply (Hup (pre1 ++ t') post1).
      - rewrite H1. symmetry. apply append_assoc.
      - subst t'. destruct pre1; discriminate.
      - exact Hin. }
    rewrite !rev_onto_append, (rev_onto_acc t' (rev_onto pre1 "")),
      (rev_onto_acc t' (rev_onto pre2 "")) in Hle.
    pose proof (common_prefix_at_least (rev_onto t' "") (rev_onto pre1 "")
                  (rev_onto pre2 "")) as Hge.
    rewrite length_rev_onto in Hge. cbn [String.length] in Hge.
    subst t'. cbn [String.length] in *. lia.
Qed.

(** X25.  The number that the table of lines 133-146 ends with is the
    length of a longest common substring: some string of that length occurs
    in both arguments, and no string that occurs in both is longer. *)
Theorem table_finds_longest_common_substring (str1 str2 : string) :
  (exists t, occurs_in t str1 /\ occurs_in t str2
             /\ String.length t = table_longest_len str1 str2)
  /\ (forall t, occurs_in t str1 -> occurs_in t str2 ->
                (String.length t <= table_longest_len str1 str2)%nat).
Proof.
  apply table_finds_longest_common_substring_aux.
Qed.

Lemma table_longest_len_symmetric (str1 str2 : string) :
  table_longest_len str1 str2 = table_longest_len str2 str1.
Proof.
  destruct (table_finds_longest_common_substring_aux str1 str2)
    as ((t & O1 & O2 & L) & U).
  destruct (table_finds_longest_common_substring_aux str2 str1)
    as ((t' & O1' & O2' & L') & U').
  pose proof (U t' O2' O1'). pose proof (U' t O2 O1). lia.
Qed.

(** X26.  [longest_common_substring_consistency_score] lies between 0 and
    1; it is 1 on two equal strings that are present, and on two present
    strings that differ it is the length of their longest common substring,
    after percent-decoding, over the length of the longer one. *)
Theorem longest_common_substring_score_is_a_ratio (str1 str2 : string) :
  present (Str str1) = true -> present (Str str2) = true ->
  0 <= longest_common_substring_consistency_score (Str str1) (Str str2) <= 1
  /\ (str1 = str2 ->
      longest_common_substring_consistency_score (Str str1) (Str str2) = 1)
  /\ (str1 <> str2 ->
      Nat.max (String.length (unquote str1)) (String.length (unquote str2))
      <> O ->
      longest_common_substring_consistency_score (Str str1) (Str str2)
      = inject_Z (Z.of_nat (table_longest_len (unquote str1) (unquote str2)))
        / inject_Z (Z.of_nat (Nat.max (String.length (unquote str1))
                                      (String.length (unquote str2))))).
Proof.
  intros P1 P2.
  split; [apply longest_common_substring_consistency_score_range|].
  unfold present in P1, P2. apply negb_true_iff in P1, P2.
  apply orb_false_iff in P1, P2. destruct P1 as [P1 A3], P2 as [P2 B3].
  apply orb_false_iff in P1, P2. destruct P1 as [P1 A2], P2 as [P2 B2].
  apply orb_false_iff in P1, P2. destruct P1 as [A0 A1], P2 as [B0 B1].
  unfold longest_common_substring_consistency_score, check_empty, is_lit.
  rewrite A0, A1, A2, A3, B0, B1, B2, B3. cbn [andb orb]. split.
  - intro E. subst str2. rewrite String.eqb_refl. reflexivity.
  - intros Hne Hlen. apply String.eqb_neq in Hne. rewrite Hne. cbv zeta.
    apply Nat.eqb_neq in Hlen. rewrite Hlen. reflexivity.
Qed.

(** X27.  [longest_common_substring_consistency_score] is symmetric. *)
Theorem longest_common_substring_score_symmetric (str1 str2 : value) :
  longest_common_substring_consistency_score str1 str2
  = longest_common_substring_consistency_score str2 str1.
Proof.
  unfold longest_common_substring_consistency_score, check_empty, is_lit.
  destruct str1 as [|a], str2 as [|b]; try reflexivity.
  - case_conditions; reflexivity.
  - case_conditions; reflexivity.
  - rewrite (String.eqb_sym b a). cbv zeta.
    change (lcs_table (unquote a) (unquote b)
              (repeat O (S (String.length (unquote b)))) O)
      with (table_longest_len (unquote a) (unquote b)).
    change (lcs_table (unquote b) (unquote a)
              (repeat O (S (String.length (unquote a)))) O)
      with (table_longest_len (unquote b) (unquote a)).
    rewrite (table_longest_len_symmetric (unquote b) (unquote a)).
    rewrite (Nat.max_comm (String.length (unquote b))).
    destruct (String.eqb a "NONE"), (String.eqb a "NOASSERTION"),
      (String.eqb b "NONE"), (String.eqb b "NOASSERTION"),
      (String.eqb a "NE"), (String.eqb b "NE"),
      (String.eqb a ""), (String.eqb b ""); cbn [andb orb]; reflexivity.
Qed.

(** X28.  When the text similarity is symmetric, so are [text_consistency]
    and [purl_consistency]. *)
Theorem text_and_purl_consistency_symmetric (v1 v2 : value) :
  (forall a b, jaro a b = jaro b a) ->
  text_consistency v1 v2 = text_consistency v2 v1
  /\ purl_consistency v1 v2 = purl_consistency v2 v1.
Proof.
  intro Hj. split.
  - unfold text_consistency, check_empty, is_lit.
    destruct v1 as [|a], v2 as [|b]; try reflexivity.
    + case_conditions; reflexivity.
    + case_conditions; reflexivity.
    + rewrite (String.eqb_sym (PyStr.lower b) (PyStr.lower a)),
        (Hj (PyStr.lower (unquote b))).
      destruct (String.eqb a "NONE"), (String.eqb a "NOASSERTION"),
        (String.eqb b "NONE"), (String.eqb b "NOASSERTION"),
        (String.eqb a "NE"), (String.eqb b "NE"),
        (String.eqb a ""), (String.eqb b ""); cbn [andb orb]; reflexivity.
  - unfold purl_consistency, check_empty, is_lit, truthy.
    destruct v1 as [|a], v2 as [|b]; try reflexivity.
    + destruct (String.eqb b ""), (String.eqb b "NE"), (String.eqb b "NONE"),
        (String.eqb b "NOASSERTION"); reflexivity.
    + destruct (String.eqb a ""), (String.eqb a "NE"), (String.eqb a "NONE"),
        (String.eqb a "NOASSERTION"); reflexivity.
    + rewrite (String.eqb_sym (PyStr.lower b) (PyStr.lower a)),
        (Hj (PyStr.lower b)).
      assert (Hd : forall d1 d2, purl_dict_score d1 d2 = purl_dict_score d2 d1).
      { intros d1 d2. unfold purl_dict_score. cbv beta zeta.
        rewrite (version_consistency_symmetric_aux
                   (Str (or_empty (purl_version d1))) _ Hj).
        rewrite (Hj (or_empty (option_map PyStr.lower (purl_type d1)))),
          (Hj (or_empty (option_map PyStr.lower (purl_namespace d1)))),
          (Hj (or_empty (option_map PyStr.lower (purl_name d1)))),
          (Hj (or_empty (option_map PyStr.lower (purl_qualifiers d1)))),
          (Hj (or_empty (option_map PyStr.lower (purl_subpath d1)))).
        reflexivity. }
      destruct (purl_from_string a) as [da|], (purl_from_string b) as [db|];
        rewrite ?(Hd da db);
        destruct (String.eqb a "NONE"), (String.eqb a "NOASSERTION"),
          (String.eqb b "NONE"), (String.eqb b "NOASSERTION"),
          (String.eqb a "NE"), (String.eqb b "NE"),
          (String.eqb a ""), (String.eqb b "");
        cbn [andb orb negb]; reflexivity.
Qed.

(** X29.  [parse_fileinfo] splits the name before it opens the file: a
    path whose base name, cut at its last dot, has not exactly three fields
    between ['#'] raises [ValueError], and [compare_files] raises it for a
    pair of valid JSON documents of which the first has such a name. *)
Theorem compare_files_raises_on_misnamed_file (fs : filesystem)
    (fileinvalid : Z) (file1_path file2_path : string) (threshold : Q) :
  List.length (PyStr.split "#" (before_last_dot (basename file1_path)))
  <> 3%nat ->
  parse_fileinfo fs file1_path = Raise ValueError
  /\ (file1_path <> file2_path ->
      is_valid_json fs file1_path = Ok true ->
      is_valid_json fs file2_path = Ok true ->
      compare_files fs fileinvalid file1_path file2_path "spdx" threshold
      = (Raise ValueError, fileinvalid)).
Proof.
  intro Hlen.
  assert (P : parse_fileinfo fs file1_path = Raise ValueError).
  { unfold parse_fileinfo.
    destruct (PyStr.split "#" (before_last_dot (basename file1_path)))
      as [|x [|y [|z [|w l]]]]; try reflexivity.
    cbn in Hlen. congruence. }
  split; [exact P|]. intros Hne V1 V2.
  unfold compare_files. rewrite V1, V2.
  apply String.eqb_neq in Hne. rewrite Hne.
  cbn [negb String.eqb Ascii.eqb Bool.eqb].
  unfold spdx_consistency. rewrite P. reflexivity.
Qed.

End Further.

End Scoring.

(** ** The theorems at concrete inputs *)

(** C7: ["v15.4.6"] and ["15.4.6"] are present and agree once the leading
    [v] is dropped, and [version_consistency] returns 0 on them. *)
Lemma version_15_4_6_with_prefix_scores_zero :
  check_empty (Str "v15.4.6") = false
  /\ check_empty (Str "15.4.6") = false
  /\ PyStr.lower (normalize_version "v15.4.6")
     = PyStr.lower (normalize_version "15.4.6")
  /\ version_consistency Sample.jaro Sample.semver_is_valid
       (Str "v15.4.6") (Str "15.4.6") = 0
  /\ ~ version_consistency Sample.jaro Sample.semver_is_valid
         (Str "v15.4.6") (Str "15.4.6") == 1.
Proof.
  repeat split. vm_compute. discriminate.
Qed.

Lemma version_consistency_equal_after_normalisation_witness :
  version_consistency Sample.jaro Sample.semver_is_valid
    (Str " V1.2 .3") (Str "v1.2.3") = 1
  /\ version_consistency Sample.jaro Sample.semver_is_valid
       (Str "v15.4.6") (Str "15.4.6") = 0.
Proof.
  split.
  - apply (version_consistency_equal_after_normalisation
             Sample.jaro Sample.semver_is_valid " V1.2 .3" "v1.2.3");
      try reflexivity; try discriminate.
    right. split; reflexivity.
  - apply (version_consistency_equal_after_normalisation
             Sample.jaro Sample.semver_is_valid "v15.4.6" "15.4.6");
      try reflexivity; try discriminate.
    left. reflexivity.
Defined.

Lemma spdx_file_cap_skips_file_comparison_witness :
  let big := mk_spdx_data (Items []) (Sample.many_files 2001) in
  let r := spdx_consistency_data Sample.jaro Sample.unquote
             Sample.semver_is_valid Sample.purl_from_string
             "syft" "ort" "repo" big Sample.doc_files 2 in
  (2000 < size (files big))%nat
  /\ files_info r = Some [Vec [0]]
  /\ firstn 3 (statistic_info r) = [0; 0; 0]%Z.
Proof.
  intros big r.
  assert (Hbig : (2000 < size (files big))%nat).
  { subst big. cbn [files size Sample.many_files].
    rewrite length_map, length_seq. lia. }
  split; [exact Hbig|].
  destruct (spdx_file_cap_skips_file_comparison Sample.jaro Sample.unquote
              Sample.semver_is_valid Sample.purl_from_string
              "syft" "ort" "repo" big Sample.doc_files 2 (or_introl Hbig))
    as [H1 [H2 _]].
  split; assumption.
Defined.

Lemma compare_files_skips_pair_when_readable_witness :
  Sample.fs "out/spdx#gh-sbom#repo.json" = Malformed
  /\ fst (compare_files Sample.jaro Sample.unquote Sample.semver_is_valid
            Sample.purl_from_string Sample.fs 0
            "out/spdx#syft#repo.json" "out/spdx#gh-sbom#repo.json" "spdx" 2)
     = Ok None.
Proof.
  split; [reflexivity|].
  apply (compare_files_skips_pair_when_readable Sample.jaro Sample.unquote
           Sample.semver_is_valid Sample.purl_from_string Sample.fs 0
           "out/spdx#syft#repo.json" "out/spdx#gh-sbom#repo.json" "spdx" 2
           true false); try reflexivity.
  right. right. reflexivity.
Defined.


Lemma sample_jaro_range (a b : string) : 0 <= Sample.jaro a b <= 1.
Proof.
  unfold Sample.jaro. destruct (String.eqb a b); split; discriminate.
Qed.



Example best_triple_match_on_sample :
  best_triple_match Sample.jaro Sample.unquote Sample.semver_is_valid
    Sample.purl_from_string spdx Sample.lodash Sample.candidates 2
  = (Some "SPDXRef-c", 3)
  /\ candidates_scanned Sample.jaro Sample.unquote Sample.semver_is_valid
       Sample.purl_from_string spdx Sample.lodash Sample.candidates = 3%nat.
Proof.
  split; vm_compute; reflexivity.
Qed.

(** The loop of lines 455-501, had it run on the pair of C3: one score
    vector for the file and one matched key. *)
Example files_loop_on_sample :
  files_loop Sample.unquote (items_of Sample.one_file) 1 1
             (items_of Sample.one_file) [] []
  = ([Vec [1]], ["SPDXRef-File-1"]).
Proof.
  vm_compute. reflexivity.
Qed.

(** The cdx counterpart of C8: without components [pkg_info] holds one
    vector of six zeros and the row is computed. *)
Example cdx_missing_components_row :
  let r := cdx_consistency_data Sample.jaro Sample.unquote
             Sample.semver_is_valid Sample.purl_from_string
             "syft" "ort" "repo" (mk_cdx_data None NE) (mk_cdx_data None NE)
             2.4 in
  pkg_info r = [Vec [0; 0; 0; 0; 0; 0]]
  /\ exists row, result_row "cdx" r = Ok row
                 /\ List.length row = 11%nat
                 /\ Forall (fun x => x == 0) row.
Proof.
  split; [reflexivity|].
  eexists. split; [reflexivity|]. split; [reflexivity|].
  repeat constructor.
Qed.

(** ** Further properties at concrete inputs *)

Lemma sample_jaro_symmetric (a b : string) : Sample.jaro a b = Sample.jaro b a.
Proof.
  unfold Sample.jaro. rewrite String.eqb_sym. reflexivity.
Qed.

Lemma dotted_parts_are_integer_literals_witness :
  PyStr.isascii "1.20.x" = true
  /\ check_digit (nth 1 (PyStr.split "." "1.20.x") "") = true
  /\ all_digits (nth 1 (PyStr.split "." "1.20.x") "") = true.
Proof.
  split; [reflexivity|]. split; [reflexivity|].
  apply (dotted_parts_are_integer_literals "1.20.x" 1);
    [reflexivity | cbn; lia | reflexivity].
Defined.

Lemma version_consistency_symmetric_witness :
  version_consistency Sample.jaro Sample.semver_is_valid (Str "1.2") (Str "1.3")
  = version_consistency Sample.jaro Sample.semver_is_valid
      (Str "1.3") (Str "1.2").
Proof.
  apply (version_consistency_symmetric Sample.jaro Sample.semver_is_valid).
  exact sample_jaro_symmetric.
Defined.

Lemma version_consistency_in_unit_interval_witness :
  plain_version (Str "1.2") = true
  /\ plain_version (Str "1.3") = true
  /\ 0 <= version_consistency Sample.jaro Sample.semver_is_valid
            (Str "1.2") (Str "1.3") <= 1.
Proof.
  split; [reflexivity|]. split; [reflexivity|].
  apply (version_consistency_in_unit_interval Sample.jaro
           Sample.semver_is_valid (Str "1.2") (Str "1.3"));
    [exact sample_jaro_range | reflexivity | reflexivity].
Defined.

Lemma purl_consistency_in_unit_interval_witness :
  0 <= purl_consistency Sample.jaro Sample.semver_is_valid
         Sample.purl_from_string
         (Str "pkg:npm/lodash@1.0") (Str "pkg:npm/lodash@2.0") <= 1.
Proof.
  apply (purl_consistency_in_unit_interval Sample.jaro Sample.semver_is_valid
           Sample.purl_from_string).
  exact sample_jaro_range.
Defined.

Lemma text_consistency_in_unit_interval_witness :
  0 <= text_consistency Sample.jaro Sample.unquote
         (Str "Organization: A") (Str "Person: B") <= 1.
Proof.
  apply (text_consistency_in_unit_interval Sample.jaro Sample.unquote).
  exact sample_jaro_range.
Defined.

Lemma license_consistency_in_unit_interval_witness :
  NoDup (deal_license (LicVal (Str "MIT AND Apache-2.0")))
  /\ 0 <= license_consistency (LicVal (Str "MIT"))
            (LicVal (Str "MIT AND Apache-2.0")) <= 1.
Proof.
  assert (H : NoDup (deal_license (LicVal (Str "MIT AND Apache-2.0")))).
  { vm_compute. repeat constructor; cbn; intuition discriminate. }
  split; [exact H|].
  apply (license_consistency_in_unit_interval _ _ H).
Defined.

Lemma best_triple_match_key_is_a_candidate_witness :
  exists pkg2, lookup "SPDXRef-c" Sample.candidates = Some pkg2.
Proof.
  apply (best_triple_match_key_is_a_candidate Sample.jaro Sample.unquote
           Sample.semver_is_valid Sample.purl_from_string
           spdx Sample.lodash Sample.candidates 2 "SPDXRef-c" 3).
  vm_compute. reflexivity.
Defined.

Lemma spdx_result_shape_witness :
  pkg_info (spdx_consistency_data Sample.jaro Sample.unquote
              Sample.semver_is_valid Sample.purl_from_string
              "syft" "ort" "repo" Sample.doc_files Sample.doc_files 2)
  <> [].
Proof.
  apply (spdx_result_shape Sample.jaro Sample.unquote Sample.semver_is_valid
           Sample.purl_from_string "syft" "ort" "repo"
           Sample.doc_files Sample.doc_files 2); reflexivity.
Defined.

Lemma spdx_row_raises_without_packages_witness :
  result_row "spdx"
    (spdx_consistency_data Sample.jaro Sample.unquote Sample.semver_is_valid
       Sample.purl_from_string "syft" "ort" "repo"
       Sample.doc_no_packages Sample.doc_files 2)
  = Raise TypeError.
Proof.
  apply (spdx_row_raises_without_packages Sample.jaro Sample.unquote
           Sample.semver_is_valid Sample.purl_from_string).
  left. reflexivity.
Defined.

Lemma compare_files_keeps_valid_pair_witness :
  snd (compare_files Sample.jaro Sample.unquote Sample.semver_is_valid
         Sample.purl_from_string Sample.fs 0
         "out/spdx#syft#repo.json" "out/spdx#ort#repo.json" "spdx" 2)
  = 0%Z.
Proof.
  apply (compare_files_keeps_valid_pair Sample.jaro Sample.unquote
           Sample.semver_is_valid Sample.purl_from_string Sample.fs 0
           "out/spdx#syft#repo.json" "out/spdx#ort#repo.json" "spdx" 2);
    [discriminate | reflexivity | reflexivity].
Defined.

Lemma parse_fileinfo_of_sbom_path_witness :
  parse_fileinfo Sample.fs (sbom_path "out" "spdx" "syft" "repo")
  = Ok ("spdx#syft#repo", "syft", "repo", SpdxData Sample.doc_files).
Proof.
  apply (parse_fileinfo_of_sbom_path Sample.fs "out" "spdx" "syft" "repo"
           (SpdxData Sample.doc_files)); reflexivity.
Defined.

Lemma evaluator_pairs_have_distinct_paths_witness :
  sbom_path "out" "spdx" "syft" "repo" <> sbom_path "out" "spdx" "ort" "repo".
Proof.
  apply (evaluator_pairs_have_distinct_paths tools_spdx "out" "spdx" "repo"
           "syft" "ort").
  - repeat constructor; cbn; intuition discriminate.
  - vm_compute. right. left. reflexivity.
Defined.



Lemma run_stops_at_pair_without_packages_witness :
  run_consistency_evaluator Sample.jaro Sample.unquote Sample.semver_is_valid
    Sample.purl_from_string Sample.fs_no_packages "spdx" "results" "out"
    ["repo"; "other"] 2 0
  = (Raise TypeError, 0%Z).
Proof.
  apply (run_stops_at_pair_without_packages Sample.jaro Sample.unquote
           Sample.semver_is_valid Sample.purl_from_string
           Sample.fs_no_packages "results" "out" "repo" ["other"]
           Sample.doc_no_packages Sample.doc_files 2 0);
    try reflexivity.
  - discriminate.
  - left. reflexivity.
Defined.

Lemma longest_common_substring_score_is_a_ratio_witness :
  0 <= longest_common_substring_consistency_score Sample.unquote
         (Str "cpe:2.3:a:x") (Str "cpe:2.3:a:y") <= 1.
Proof.
  apply (longest_common_substring_score_is_a_ratio Sample.unquote
           "cpe:2.3:a:x" "cpe:2.3:a:y"); reflexivity.
Defined.

Lemma text_and_purl_consistency_symmetric_witness :
  text_consistency Sample.jaro Sample.unquote (Str "Person: A") (Str "Person: B")
  = text_consistency Sample.jaro Sample.unquote
      (Str "Person: B") (Str "Person: A").
Proof.
  apply (text_and_purl_consistency_symmetric Sample.jaro Sample.unquote
           Sample.semver_is_valid Sample.purl_from_string).
  exact sample_jaro_symmetric.
Defined.

Lemma compare_files_raises_on_misnamed_file_witness :
  parse_fileinfo Sample.fs "out/sbom.json" = Raise ValueError.
Proof.
  apply (compare_files_raises_on_misnamed_file Sample.jaro Sample.unquote
           Sample.semver_is_valid Sample.purl_from_string Sample.fs 0
           "out/sbom.json" "out/other.json" 2).
  vm_compute. discriminate.
Defined.
